(** * Stock-Screener front end: response resolver, API client, session
      store, dashboard workflow and sector panel

    Shallow embedding of the client-side orchestration code:

    - [handleResponse] (services/api.js and services/sectorApi.js carry the
      same function, statement for statement),
    - the [api] / [sectorApi] request wrappers,
    - [AuthProvider]'s [logout],
    - [Dashboard]'s [handleFileChange], [handleUpload], [handleProcess],
    - [SectorPerformance]'s [fetchData], [maxPerformance] and bar style.

    JavaScript values are an inductive type, a settled promise is a
    [completion], and code that mutates an object or React state is written
    in a state-and-exception monad whose state survives a [throw], as it
    does in JavaScript.  Console output is not part of the modelled state. *)

From Stdlib Require Import String Ascii List Bool Arith ZArith QArith.
From Stdlib Require Import Qminmax Qabs Qround Qpower DecimalString Lia Lqa.
Import ListNotations.
Close Scope Q_scope.
Open Scope string_scope.

(** ** JavaScript values *)

#[warnings="-register-all"]
Inductive value : Type :=
| VUndefined
| VNull
| VBool (b : bool)
| VNum (q : Q)
| VStr (s : string)
| VArr (items : list value)
| VObj (props : list (string * value)).

(** ToBoolean.  JSON numbers are finite, so a number is falsy iff zero. *)
Definition truthy (v : value) : bool :=
  match v with
  | VUndefined | VNull => false
  | VBool b => b
  | VNum q => negb (Qeq_bool q 0)
  | VStr s => negb (s =? "")
  | VArr _ | VObj _ => true
  end.

Inductive ErrorName := Error | TypeError | SyntaxError.

(** A thrown [Error] object: its constructor and its [message]. *)
Record exn := mkExn { name : ErrorName; message : string }.

Definition new_Error (msg : string) : exn := mkExn Error msg.

(** How an evaluation, or an awaited promise, ends. *)
Inductive completion (A : Type) : Type :=
| Return (a : A)
| Throw (e : exn).
Arguments Return {A} a.
Arguments Throw {A} e.

Fixpoint lookup (key : string) (props : list (string * value)) : value :=
  match props with
  | [] => VUndefined
  | (k, v) :: rest => if k =? key then v else lookup key rest
  end.

(** [v.key] for the keys the code reads ([success], [message], [detail],
    [error], [data]): an own property of an object, [undefined] on the other
    values, a [TypeError] on [null] and [undefined]. *)
Definition get_prop (v : value) (key : string) : completion value :=
  match v with
  | VObj props => Return (lookup key props)
  | VNull => Throw (mkExn TypeError ("Cannot read properties of null (reading '" ++ key ++ "')"))
  | VUndefined => Throw (mkExn TypeError ("Cannot read properties of undefined (reading '" ++ key ++ "')"))
  | _ => Return VUndefined
  end.

(** [s.includes(sub)] *)
Fixpoint includes (s sub : string) : bool :=
  String.prefix sub s ||
  match s with
  | EmptyString => false
  | String _ s' => includes s' sub
  end.

(** [`${n}`] for a non-negative integer *)
Definition nat_to_string (n : nat) : string :=
  NilEmpty.string_of_uint (Nat.to_uint n).

Fixpoint frac_digits (fuel : nat) (r d : Z) : string :=
  match fuel with
  | O => ""
  | S fuel' =>
      if (r =? 0)%Z then ""
      else nat_to_string (Z.to_nat (10 * r / d))
           ++ frac_digits fuel' ((10 * r) mod d) d
  end.

(** [String(q)] for the numbers a JSON body carries in plain decimal form. *)
Definition Number_toString (q : Q) : string :=
  let n := Qnum q in
  let d := Zpos (Qden q) in
  let a := Z.abs n in
  (if (n <? 0)%Z then "-" else "")
  ++ nat_to_string (Z.to_nat (a / d))
  ++ (if (a mod d =? 0)%Z then "" else "." ++ frac_digits 17 (a mod d) d).

Fixpoint join (sep : string) (parts : list string) : string :=
  match parts with
  | [] => ""
  | [p] => p
  | p :: rest => p ++ sep ++ join sep rest
  end.

(** ToString, as [new Error(v)] applies it to its argument. *)
Fixpoint ToString (v : value) : string :=
  match v with
  | VUndefined => "undefined"
  | VNull => "null"
  | VBool true => "true"
  | VBool false => "false"
  | VNum q => Number_toString q
  | VStr s => s
  | VArr items =>
      join "," (map (fun x => match x with
                              | VUndefined | VNull => ""
                              | _ => ToString x
                              end) items)
  | VObj _ => "[object Object]"
  end.

(** ** State and exceptions

    [M S A]: a computation over a mutable [S] that returns an [A] or throws.
    The state reached before a throw is kept. *)

Definition M (S A : Type) : Type := S -> completion A * S.

Definition ret {S A} (a : A) : M S A := fun s => (Return a, s).

Definition throw {S A} (e : exn) : M S A := fun s => (Throw e, s).

Definition bind {S A B} (m : M S A) (k : A -> M S B) : M S B :=
  fun s =>
    match m s with
    | (Return a, s') => k a s'
    | (Throw e, s') => (Throw e, s')
    end.

(** [try { m } catch (e) { handler e }] *)
Definition try_catch {S A} (m : M S A) (handler : exn -> M S A) : M S A :=
  fun s =>
    match m s with
    | (Return a, s') => (Return a, s')
    | (Throw e, s') => handler e s'
    end.

(** [try { m } finally { f }], for an [f] that itself neither throws nor
    returns: the completion of [m] stands. *)
Definition try_finally {S A} (m : M S A) (f : S -> S) : M S A :=
  fun s => let (c, s') := m s in (c, f s').

(** [await p] for a promise that settles as [c], and plain evaluation of an
    expression that completes as [c]. *)
Definition await {S A} (c : completion A) : M S A := fun s => (c, s).

Definition get_state {S} : M S S := fun s => (Return s, s).

Definition modify {S} (f : S -> S) : M S unit := fun s => (Return tt, f s).

(** [if (b) { m }] *)
Definition when {S} (b : bool) (m : M S unit) : M S unit :=
  if b then m else ret tt.

Declare Scope js_scope.
Delimit Scope js_scope with js.
Notation "x <- m ;; k" := (bind m (fun x => k))
  (at level 61, m at next level, right associativity) : js_scope.
Notation "m ;; k" := (bind m (fun _ => k))
  (at level 61, right associativity) : js_scope.
Open Scope js_scope.

(** [a || b], with [b] evaluated only when [a] is falsy *)
Definition JS_or {S} (a b : M S value) : M S value :=
  x <- a ;; if truthy x then ret x else b.

(** ** The Fetch [Response] object

    What the code reads of a response: [status], [statusText], the
    [content-type] header ([None] when [headers.get] returns [null]), and the
    body through [json()] and [text()].

    [body] is the body text, [None] for a response that has no body (a 204,
    say); [parsed] is what [JSON.parse] makes of that text ([None]: it throws
    a [SyntaxError]).  A body is a stream that can be read once: [json()] and
    [text()] read it to the end, which sets [bodyUsed], and reject with a
    [TypeError] when it is already set.  A response without a body reads as
    the empty text every time, and the empty text is not JSON.

    [calls] is not a property of the object: it records the body methods
    that were called on it, latest first. *)

Inductive BodyMethod := json_call | text_call.

Record Response := mkResponse {
  status : nat;
  statusText : string;
  content_type : option string;
  body : option string;
  parsed : option value;
  bodyUsed : bool;
  calls : list BodyMethod
}.

(** [response.ok]: the status is in the range 200-299. *)
Definition ok (r : Response) : bool :=
  (200 <=? status r)%nat && (status r <=? 299)%nat.

Definition called (m : BodyMethod) (r : Response) : Response :=
  mkResponse (status r) (statusText r) (content_type r) (body r) (parsed r)
    (bodyUsed r) (m :: calls r).

Definition consume (r : Response) : Response :=
  mkResponse (status r) (statusText r) (content_type r) (body r) (parsed r)
    true (calls r).

Definition body_already_read : exn :=
  mkExn TypeError "body stream already read".

Definition not_valid_JSON : exn :=
  mkExn SyntaxError "Unexpected token in JSON".

(** [response.json()] *)
Definition Response_json : M Response value :=
  fun r =>
    let r := called json_call r in
    match body r with
    | None => (Throw not_valid_JSON, r)
    | Some _ =>
        if bodyUsed r then (Throw body_already_read, r)
        else match parsed r with
             | Some v => (Return v, consume r)
             | None => (Throw not_valid_JSON, consume r)
             end
    end.

(** [response.text()] *)
Definition Response_text : M Response string :=
  fun r =>
    let r := called text_call r in
    match body r with
    | None => (Return "", r)
    | Some t =>
        if bodyUsed r then (Throw body_already_read, r)
        else (Return t, consume r)
    end.

(** [contentType && contentType.includes(sub)] *)
Definition declares (contentType : option string) (sub : string) : bool :=
  match contentType with
  | Some ct => negb (ct =? "") && includes ct sub
  | None => false
  end.

(** ** [handleResponse] (services/api.js, services/sectorApi.js) *)

Definition handleResponse : M Response value :=
  response <- get_state ;;
  let contentType := content_type response in
  when (negb (ok response)) (
    when (declares contentType "text/html")
      (throw (new_Error ("Server error: " ++ nat_to_string (status response)
                         ++ " " ++ statusText response))) ;;
    try_catch
      (errorData <- Response_json ;;
       msg <- JS_or (await (get_prop errorData "message"))
                (JS_or (await (get_prop errorData "detail"))
                   (ret (VStr ("HTTP " ++ nat_to_string (status response))))) ;;
       throw (new_Error (ToString msg)))
      (fun _ =>
         throw (new_Error ("HTTP " ++ nat_to_string (status response)
                           ++ ": " ++ statusText response)))
  ) ;;
  try_catch
    Response_json
    (fun jsonError =>
       text <- Response_text ;;
       throw (new_Error ("Invalid JSON response: "
                         ++ String.substring 0 100 text ++ "..."))).

(** ** Requests *)

Record File := mkFile { file_name : string; file_content : string }.

Inductive FormValue := FormString (s : string) | FormFile (f : File).

Inductive Method := GET | POST.

(** [fetch(url, { method, credentials: 'include', body })]; every call of the
    client sends the credentials. *)
Record Request := mkRequest {
  url : string;
  method : Method;
  form : list (string * FormValue)
}.

(** What the network does with a request: the promise [fetch] returns
    rejects (no connection, time-out) or resolves with a response. *)
Definition Network : Type := Request -> completion Response.

Definition fetch (net : Network) (req : Request) : completion Response :=
  net req.

(** Run a computation that has no state of its own. *)
Definition run {A} (m : M unit A) : completion A := fst (m tt).

(** Call [m] on the object [r]; the object is not used afterwards. *)
Definition on {S A} (r : Response) (m : M Response A) : M S A :=
  await (fst (m r)).

Definition API_URL : string := "http://localhost:8000".

(** A parameter declared with a default ([f(x = d)]): the default stands in
    for [undefined], and only for it. *)
Definition default_arg (v d : value) : value :=
  match v with
  | VUndefined => d
  | _ => v
  end.

(** [a === b] against a primitive; two objects are the same only by
    identity, which a comparison with a literal never is. *)
Definition strict_equals (a b : value) : bool :=
  match a, b with
  | VUndefined, VUndefined | VNull, VNull => true
  | VBool x, VBool y => Bool.eqb x y
  | VNum x, VNum y => Qeq_bool x y
  | VStr x, VStr y => x =? y
  | _, _ => false
  end.

(** ** [api] (services/api.js)

    Every networked operation pipes the response through [handleResponse]
    and passes a rejection on unchanged.  (The repository also holds a copy
    of this module whose operations return [response.json()] directly; the
    handlers below depend on how a call settles, not on which copy made
    it.) *)

Module api.

Definition logout (net : Network) : completion value :=
  run (try_catch
         (response <- await (fetch net (mkRequest (API_URL ++ "/logout") POST [])) ;;
          on response handleResponse)
         (fun error => throw error)).

Definition uploadCSV (net : Network) (file : File) : completion value :=
  let formData := [("file", FormFile file)] in
  run (try_catch
         (response <- await (fetch net (mkRequest (API_URL ++ "/upload-csv") POST formData)) ;;
          on response handleResponse)
         (fun error => throw error)).

Definition processCSV (net : Network) : completion value :=
  run (try_catch
         (response <- await (fetch net (mkRequest (API_URL ++ "/process-csv") POST [])) ;;
          on response handleResponse)
         (fun error => throw error)).

Definition getResults (net : Network) : completion value :=
  run (try_catch
         (response <- await (fetch net (mkRequest (API_URL ++ "/results") GET [])) ;;
          on response handleResponse)
         (fun error => throw error)).

Definition getSignals (net : Network) : completion value :=
  run (try_catch
         (response <- await (fetch net (mkRequest (API_URL ++ "/signals") GET [])) ;;
          on response handleResponse)
         (fun error => throw error)).

(** [getChartIframe(uploadId = null)] *)
Definition getChartIframe (uploadId : value) : string :=
  if truthy uploadId
  then API_URL ++ "/chart-iframe?upload_id=" ++ ToString uploadId
  else API_URL ++ "/chart-iframe".

Definition register (net : Network) (username password : string)
  : completion value :=
  let formData := [("username", FormString username);
                   ("password", FormString password)] in
  run (try_catch
         (response <- await (fetch net (mkRequest (API_URL ++ "/register") POST formData)) ;;
          on response handleResponse)
         (fun error => throw error)).

Definition login (net : Network) (username password : string)
  : completion value :=
  let formData := [("username", FormString username);
                   ("password", FormString password)] in
  run (try_catch
         (response <- await (fetch net (mkRequest (API_URL ++ "/login") POST formData)) ;;
          on response handleResponse)
         (fun error => throw error)).

Definition getUser (net : Network) : completion value :=
  run (try_catch
         (response <- await (fetch net (mkRequest (API_URL ++ "/me") GET [])) ;;
          on response handleResponse)
         (fun error => throw error)).

(** [getChart(format = 'html', uploadId = null)] *)
Definition getChart (format uploadId : value) : string :=
  let format := default_arg format (VStr "html") in
  let uploadId := default_arg uploadId VNull in
  let baseUrl := API_URL ++ "/generate-chart?format=" ++ ToString format in
  if truthy uploadId
  then baseUrl ++ "&upload_id=" ++ ToString uploadId
  else baseUrl.

(** [getChartHtml(uploadId = null)] *)
Definition getChartHtml (net : Network) (uploadId : value) : completion value :=
  let uploadId := default_arg uploadId VNull in
  let url := if truthy uploadId
             then API_URL ++ "/chart-html?upload_id=" ++ ToString uploadId
             else API_URL ++ "/chart-html" in
  run (try_catch
         (response <- await (fetch net (mkRequest url GET [])) ;;
          on response handleResponse)
         (fun error => throw error)).

(** [checkChartStatus(uploadId = null)] *)
Definition checkChartStatus (net : Network) (uploadId : value)
  : completion value :=
  let uploadId := default_arg uploadId VNull in
  let url := if truthy uploadId
             then API_URL ++ "/chart-status?upload_id=" ++ ToString uploadId
             else API_URL ++ "/chart-status" in
  run (try_catch
         (response <- await (fetch net (mkRequest url GET [])) ;;
          on response handleResponse)
         (fun error => throw error)).

Definition getHistory (net : Network) : completion value :=
  run (try_catch
         (response <- await (fetch net (mkRequest (API_URL ++ "/history") GET [])) ;;
          on response handleResponse)
         (fun error => throw error)).

Definition getHistoryDetail (net : Network) (uploadId : value)
  : completion value :=
  run (try_catch
         (response <- await (fetch net (mkRequest (API_URL ++ "/history/" ++ ToString uploadId) GET [])) ;;
          on response handleResponse)
         (fun error => throw error)).

Definition exportSignals : string := API_URL ++ "/export-signals".

End api.

(** ** [sectorApi] (services/sectorApi.js) *)

Module sectorApi.

Definition fetchSectorData (net : Network) (period : string)
  : completion value :=
  run (try_catch
         (response <- await (fetch net (mkRequest (API_URL ++ "/sector-performance/" ++ period) GET [])) ;;
          on response handleResponse)
         (fun error => throw error)).

Definition fetchSectorSummary (net : Network) (period : string)
  : completion value :=
  run (try_catch
         (response <- await (fetch net (mkRequest (API_URL ++ "/sector-summary/" ++ period) GET [])) ;;
          on response handleResponse)
         (fun error => throw error)).

End sectorApi.

(** ** [AuthProvider] (context/AuthContext.jsx) *)

Module AuthContext.

Record AuthState := mkAuth { user : value; loading : bool }.

Definition setUser (v : value) (a : AuthState) : AuthState :=
  mkAuth v (loading a).

Definition logout (net : Network) : M AuthState bool :=
  try_catch
    (await (api.logout net) ;;
     modify (setUser VNull) ;;
     ret true)
    (fun error => ret false).

(** The session as the views read it: [loading] gates the routes, and the
    navigation bar branches on [user ? ... : ...]. *)
Inductive Session := Probing | Anonymous | Authenticated (identity : value).

Definition session (a : AuthState) : Session :=
  if loading a then Probing
  else if truthy (user a) then Authenticated (user a)
  else Anonymous.


Definition setLoading (b : bool) (a : AuthState) : AuthState :=
  mkAuth (user a) b.

(** The state of [useState(null)] and [useState(true)] at mount. *)
Definition initial : AuthState := mkAuth VNull true.

(** [checkLoggedIn], the effect run once at mount. *)
Definition checkLoggedIn (net : Network) : M AuthState unit :=
  try_finally
    (try_catch
       (data <- await (api.getUser net) ;;
        logged_in <- await (get_prop data "logged_in") ;;
        when (truthy logged_in)
          (username <- await (get_prop data "username") ;;
           modify (setUser username)))
       (fun error => ret tt))
    (setLoading false).

Definition login (net : Network) (username password : string)
  : M AuthState value :=
  try_catch
    (data <- await (api.login net username password) ;;
     success <- await (get_prop data "success") ;;
     if truthy success then
       name <- await (get_prop data "username") ;;
       modify (setUser name) ;;
       ret (VObj [("success", VBool true)])
     else
       message <- await (get_prop data "message") ;;
       ret (VObj [("success", VBool false); ("message", message)]))
    (fun error =>
       ret (VObj [("success", VBool false);
                  ("message", VStr "Login failed. Please try again.")])).

Definition register (net : Network) (username password : string)
  : M AuthState value :=
  try_catch
    (data <- await (api.register net username password) ;;
     ret data)
    (fun error =>
       ret (VObj [("success", VBool false);
                  ("message", VStr "Registration failed. Please try again.")])).

End AuthContext.

(** ** [Navbar] (components/Navbar.jsx) *)

Module Navbar.

(** What the bar works on: the session of [useAuth()] and the location that
    [navigate] of the router sets. *)
Record App := mkApp { auth : AuthContext.AuthState; location : string }.

Definition navigate (to : string) (app : App) : App := mkApp (auth app) to.

(** Run a session operation on the session of the application. *)
Definition useAuth {A} (m : M AuthContext.AuthState A) : M App A :=
  fun app => let (c, a) := m (auth app) in (c, mkApp a (location app)).

Definition handleLogout (net : Network) : M App unit :=
  useAuth (AuthContext.logout net) ;;
  modify (navigate "/login").

(** The branch of [user ? ... : ...] in the bar: the welcome and the logout
    button, or the links to log in and to register. *)
Definition shows_welcome (app : App) : bool := truthy (AuthContext.user (auth app)).

End Navbar.

(** ** [Dashboard] (pages/Dashboard.jsx) *)

Module Dashboard.

(** The component's [useState] cells, with the initial values of the source
    in [initial]. *)
Record State := mkState {
  file : option File;
  fileName : string;
  uploading : bool;
  processing : bool;
  error : value;
  results : value;
  signals : value;
  chartUrl : string
}.

Definition initial : State :=
  mkState None "" false false (VStr "") VNull VNull "".

Definition setFile (x : option File) (s : State) : State :=
  mkState x (fileName s) (uploading s) (processing s) (error s) (results s)
    (signals s) (chartUrl s).

Definition setFileName (x : string) (s : State) : State :=
  mkState (file s) x (uploading s) (processing s) (error s) (results s)
    (signals s) (chartUrl s).

Definition setUploading (x : bool) (s : State) : State :=
  mkState (file s) (fileName s) x (processing s) (error s) (results s)
    (signals s) (chartUrl s).

Definition setProcessing (x : bool) (s : State) : State :=
  mkState (file s) (fileName s) (uploading s) x (error s) (results s)
    (signals s) (chartUrl s).

Definition setError (x : value) (s : State) : State :=
  mkState (file s) (fileName s) (uploading s) (processing s) x (results s)
    (signals s) (chartUrl s).

Definition setResults (x : value) (s : State) : State :=
  mkState (file s) (fileName s) (uploading s) (processing s) (error s) x
    (signals s) (chartUrl s).

Definition setSignals (x : value) (s : State) : State :=
  mkState (file s) (fileName s) (uploading s) (processing s) (error s)
    (results s) x (chartUrl s).

Definition setChartUrl (x : string) (s : State) : State :=
  mkState (file s) (fileName s) (uploading s) (processing s) (error s)
    (results s) (signals s) x.

(** [handleFileChange(e)], with [files0] standing for [e.target.files[0]]
    ([None]: the dialog was closed without a file). *)
Definition handleFileChange (files0 : option File) : M State unit :=
  match files0 with
  | Some selectedFile =>
      modify (setFile (Some selectedFile)) ;;
      modify (setFileName (file_name selectedFile))
  | None => ret tt
  end.

Definition handleProcess (net : Network) : M State unit :=
  modify (setProcessing true) ;;
  modify (setError (VStr "")) ;;
  try_finally
    (try_catch
       (result <- await (api.processCSV net) ;;
        success <- await (get_prop result "success") ;;
        if truthy success then
          resultsData <- await (api.getResults net) ;;
          signalsData <- await (api.getSignals net) ;;
          modify (setResults resultsData) ;;
          modify (setSignals signalsData) ;;
          modify (setChartUrl (api.getChartIframe VNull))
        else
          msg <- JS_or (await (get_prop result "error"))
                   (ret (VStr "Processing failed")) ;;
          modify (setError msg))
       (fun err => modify (setError (VStr "An error occurred during processing"))))
    (setProcessing false).

(** [handleUpload(e)]; [e.preventDefault()] touches no state. *)
Definition handleUpload (net : Network) : M State unit :=
  s <- get_state ;;
  match file s with
  | None => modify (setError (VStr "Please select a file to upload"))
  | Some f =>
      modify (setError (VStr "")) ;;
      modify (setUploading true) ;;
      try_finally
        (try_catch
           (result <- await (api.uploadCSV net f) ;;
            success <- await (get_prop result "success") ;;
            if truthy success then
              handleProcess net
            else
              msg <- JS_or (await (get_prop result "message"))
                       (ret (VStr "Upload failed")) ;;
              modify (setError msg))
           (fun err => modify (setError (VStr "An error occurred during upload"))))
        (setUploading false)
  end.

(** A call "reports success": it resolves with a payload whose [success]
    reads truthy, the test both handlers apply to the upload and the
    process call. *)
Definition reports_success (c : completion value) : Prop :=
  exists result success,
    c = Return result /\ get_prop result "success" = Return success /\
    truthy success = true.

(** The stage of a run as the component renders it: the form is disabled
    while [uploading || processing], the error banner shows when [error] is
    truthy, the results section when [results] is. *)
Inductive Stage := Idle | Uploading | Processing | Ready | Failed.

Definition stage (s : State) : Stage :=
  if processing s then Processing
  else if uploading s then Uploading
  else if truthy (error s) then Failed
  else if truthy (results s) then Ready
  else Idle.

End Dashboard.

(** ** [History] (pages/History.jsx) *)

Module History.

Record State := mkState {
  history : value;
  loading : bool;
  error : string;
  selectedEntry : value
}.

Definition initial : State := mkState (VArr []) true "" VNull.

Definition setHistory (x : value) (s : State) : State :=
  mkState x (loading s) (error s) (selectedEntry s).

Definition setLoading (x : bool) (s : State) : State :=
  mkState (history s) x (error s) (selectedEntry s).

Definition setError (x : string) (s : State) : State :=
  mkState (history s) (loading s) x (selectedEntry s).

Definition setSelectedEntry (x : value) (s : State) : State :=
  mkState (history s) (loading s) (error s) x.

Definition loadHistory (net : Network) : M State unit :=
  modify (setLoading true) ;;
  try_finally
    (try_catch
       (result <- await (api.getHistory net) ;;
        success <- await (get_prop result "success") ;;
        if truthy success then
          entries <- await (get_prop result "history") ;;
          modify (setHistory entries)
        else
          modify (setError "Failed to load history"))
       (fun err => modify (setError "An error occurred while loading history")))
    (setLoading false).

Definition handleViewDetails (net : Network) (uploadId : value) : M State unit :=
  try_catch
    (result <- await (api.getHistoryDetail net uploadId) ;;
     success <- await (get_prop result "success") ;;
     when (truthy success)
       (entry <- await (get_prop result "entry") ;;
        modify (setSelectedEntry entry)))
    (fun err => ret tt).

(** [handleViewChart(uploadId, format = 'html')]: the address it hands to
    [window.open]. *)
Definition handleViewChart (uploadId format : value) : string :=
  let format := default_arg format (VStr "html") in
  api.getChart format VUndefined ++ "&upload_id=" ++ ToString uploadId.

End History.

(** ** [SignalsTable] (components/SignalsTable.jsx) *)

Module SignalsTable.

(** [v.length] of a value that reads truthy: the number of elements of an
    array, the own property of an object, the length of a string (which is
    not 0, the string being truthy); a number or a boolean has none. *)
Definition length_of (v : value) : value :=
  match v with
  | VArr items => VNum (inject_Z (Z.of_nat (length items)))
  | VObj props => lookup "length" props
  | VStr s => VNum (inject_Z (Z.of_nat (String.length s)))
  | _ => VUndefined
  end.

(** [formatDate(dateStr)], with [toLocaleString d] standing for
    [new Date(d).toLocaleString()], which depends on the locale and the time
    zone of the browser. *)
Definition formatDate (toLocaleString : value -> string) (dateStr : value)
  : string :=
  if negb (truthy dateStr) then "-" else toLocaleString dateStr.

Definition mark (v : value) : string :=
  if truthy v then "✅" else "❌".

(** The cells of one row. *)
Definition row (toLocaleString : value -> string) (signal : value)
  : completion (list string) :=
  run (type <- await (get_prop signal "Type") ;;
       cross <- await (get_prop signal "Cross_Time") ;;
       volume <- await (get_prop signal "Volume_Spike_Time") ;;
       candle <- await (get_prop signal "Big_Candle_Time") ;;
       breakout <- await (get_prop signal "Breakout_Time") ;;
       sr <- await (get_prop signal "SR_Confirmed") ;;
       accuracy <- await (get_prop signal "Accuracy") ;;
       ret [ (if strict_equals type (VStr "LONG") then "🔼 BUY" else "🔽 SELL");
             formatDate toLocaleString cross;
             mark volume;
             mark candle;
             mark breakout;
             mark sr;
             (if strict_equals accuracy (VBool true) then "✅"
              else if strict_equals accuracy (VBool false) then "❌"
              else "-") ]).

Fixpoint rows (toLocaleString : value -> string) (signals : list value)
  : completion (list (list string)) :=
  match signals with
  | [] => Return []
  | signal :: rest =>
      match row toLocaleString signal with
      | Throw e => Throw e
      | Return cells =>
          match rows toLocaleString rest with
          | Throw e => Throw e
          | Return more => Return (cells :: more)
          end
      end
  end.

(** What the component renders: the paragraph [No signals found], or the
    body of the table. *)
Inductive View := NoSignals | Table (body : list (list string)).

Definition SignalsTable (toLocaleString : value -> string) (signals : value)
  : completion View :=
  if negb (truthy signals) || strict_equals (length_of signals) (VNum 0)
  then Return NoSignals
  else
    match signals with
    | VArr items =>
        match rows toLocaleString items with
        | Return body => Return (Table body)
        | Throw e => Throw e
        end
    | _ => Throw (mkExn TypeError "signals.map is not a function")
    end.

End SignalsTable.

(** ** JavaScript numbers, for the bar arithmetic

    A number is [NaN], an infinity, or a finite double, held as the rational
    it is.  Division and multiplication round their exact result to the
    nearest double ([round64]).  The sign of zero is not modelled, and a
    result too large for a double stays the rational it is instead of
    becoming an infinity, which the cap of a width at 100 does not tell
    apart. *)

Inductive num := NaN | Inf (positive : bool) | Fin (q : Q).

Definition negative (q : Q) : bool :=
  match (q ?= 0)%Q with Lt => true | _ => false end.

(** The integer nearest to [x], the even one of two that are equally
    near. *)
Definition rne (x : Q) : Z :=
  let f := Qfloor x in
  match Qcompare (x - inject_Z f) (1 # 2) with
  | Lt => f
  | Gt => (f + 1)%Z
  | Eq => if Z.even f then f else (f + 1)%Z
  end.

(** For [q > 0], the exponent [e] with [2 ^ e <= q < 2 ^ (e + 1)]. *)
Definition ilog2 (q : Q) : Z :=
  let c := (Z.log2 (Qnum q) - Z.log2 (Zpos (Qden q)))%Z in
  if Qle_bool (2 ^ c) q then c else (c - 1)%Z.

(** The double nearest to [q > 0]: 53 significant bits, and no bit below
    [2 ^ -1074]. *)
Definition round_pos (q : Q) : Q :=
  let p := Z.max (ilog2 q - 52) (-1074) in
  (inject_Z (rne (q / 2 ^ p)) * 2 ^ p)%Q.

Definition round64 (q : Q) : Q :=
  match Qcompare q 0 with
  | Eq => 0%Q
  | Gt => round_pos q
  | Lt => (- round_pos (- q))%Q
  end.

Definition num_div (a b : num) : num :=
  match a, b with
  | NaN, _ | _, NaN => NaN
  | Fin x, Fin y =>
      if Qeq_bool y 0
      then (if Qeq_bool x 0 then NaN else Inf (negb (negative x)))
      else Fin (round64 (x / y))
  | Fin _, Inf _ => Fin 0
  | Inf s, Fin y => Inf (if negative y then negb s else s)
  | Inf _, Inf _ => NaN
  end.

Definition num_mul (a b : num) : num :=
  match a, b with
  | NaN, _ | _, NaN => NaN
  | Fin x, Fin y => Fin (round64 (x * y))
  | Fin x, Inf s | Inf s, Fin x =>
      if Qeq_bool x 0 then NaN else Inf (if negative x then negb s else s)
  | Inf s, Inf t => Inf (Bool.eqb s t)
  end.

(** [Math.max(a, b)] and [Math.min(a, b)] *)
Definition num_max (a b : num) : num :=
  match a, b with
  | NaN, _ | _, NaN => NaN
  | Inf true, _ | _, Inf true => Inf true
  | Inf false, x | x, Inf false => x
  | Fin x, Fin y => Fin (Qmax x y)
  end.

Definition num_min (a b : num) : num :=
  match a, b with
  | NaN, _ | _, NaN => NaN
  | Inf false, _ | _, Inf false => Inf false
  | Inf true, x | x, Inf true => x
  | Fin x, Fin y => Fin (Qmin x y)
  end.

(** [Math.max(...xs)]: [-Infinity] for no argument. *)
Definition Math_max (xs : list num) : num :=
  fold_left num_max xs (Inf false).

(** [Math.abs(x)] *)
Definition Math_abs (x : num) : num :=
  match x with
  | NaN => NaN
  | Inf _ => Inf true
  | Fin q => Fin (Qabs q)
  end.

(** [a < b] and [a >= b]: both are false when either side is [NaN]. *)
Definition num_lt (a b : num) : bool :=
  match a, b with
  | NaN, _ | _, NaN => false
  | Inf true, _ | _, Inf false => false
  | Inf false, _ | _, Inf true => true
  | Fin x, Fin y => negb (Qle_bool y x)
  end.

Definition num_ge (a b : num) : bool :=
  match a, b with
  | NaN, _ | _, NaN => false
  | _, _ => negb (num_lt a b)
  end.

(** Equality of numbers as values: rationals up to their fraction form. *)
Definition num_eq (a b : num) : Prop :=
  match a, b with
  | NaN, NaN => True
  | Inf s, Inf t => s = t
  | Fin x, Fin y => (x == y)%Q
  | _, _ => False
  end.

(** ** [SectorPerformance] (components/SectorPerformance.jsx) *)

Module SectorPerformance.

Record State := mkState {
  period : string;
  sectorData : value;
  summary : value;
  loading : bool;
  error : string
}.

Definition initial : State := mkState "1d" (VArr []) VNull false "".

Definition setPeriod (x : string) (s : State) : State :=
  mkState x (sectorData s) (summary s) (loading s) (error s).

Definition setSectorData (x : value) (s : State) : State :=
  mkState (period s) x (summary s) (loading s) (error s).

Definition setSummary (x : value) (s : State) : State :=
  mkState (period s) (sectorData s) x (loading s) (error s).

Definition setLoading (x : bool) (s : State) : State :=
  mkState (period s) (sectorData s) (summary s) x (error s).

Definition setError (x : string) (s : State) : State :=
  mkState (period s) (sectorData s) (summary s) (loading s) x.

(** [Promise.all([a, b])] of two requests that have settled as [a] and [b].
    When both reject, the rejection that is passed on is the one that came
    first in time; the handler below does not look at it. *)
Definition Promise_all (a b : completion value) : completion (value * value) :=
  match a, b with
  | Return x, Return y => Return (x, y)
  | Throw e, _ => Throw e
  | Return _, Throw e => Throw e
  end.

Definition fetchData (net : Network) (selectedPeriod : string) : M State unit :=
  modify (setLoading true) ;;
  modify (setError "") ;;
  try_finally
    (try_catch
       (responses <- await (Promise_all
                              (sectorApi.fetchSectorData net selectedPeriod)
                              (sectorApi.fetchSectorSummary net selectedPeriod)) ;;
        let (dataResponse, summaryResponse) := responses : value * value in
        success <- await (get_prop dataResponse "success") ;;
        when (truthy success)
          (data <- await (get_prop dataResponse "data") ;;
           modify (setSectorData data)) ;;
        when (truthy summaryResponse)
          (modify (setSummary summaryResponse)))
       (fun err => modify (setError "Failed to fetch sector data")))
    (setLoading false).

(** [useEffect(() => { fetchData(period) }, [period])]: run on mount and
    after each change of [period]. *)
Definition effect (net : Network) : M State unit :=
  s <- get_state ;;
  fetchData net (period s).

(** [handlePeriodChange(e)], with [selected] standing for [e.target.value];
    the change of [period] triggers the effect. *)
Definition handlePeriodChange (net : Network) (selected : string) : M State unit :=
  modify (setPeriod selected) ;;
  effect net.

(** An element of [sectorData] as the bars read it. *)
(** [performance] is the number that [Math.abs] and the comparisons see,
    the payload's field converted to a number: [NaN] when the field is
    missing or is not numeric. *)
Record Entry := mkEntry { sector : string; performance : num }.

Definition getBarColor (performance : num) : string :=
  if num_ge performance (Fin 0) then "#4caf50" else "#f44336".

Definition maxPerformance (sectorData : list Entry) : num :=
  if (0 <? length sectorData)%nat
  then Math_max (map (fun item => Math_abs (performance item)) sectorData)
  else Fin 5.

(** The [width] of a bar, the number in front of the percent sign. *)
Definition width (sectorData : list Entry) (sector : Entry) : num :=
  num_min
    (num_mul (num_div (Math_abs (performance sector)) (maxPerformance sectorData))
       (Fin 100))
    (Fin 100).

(** The [marginLeft] of a bar; [auto] pushes it to the right edge. *)
Definition marginLeft (sector : Entry) : string :=
  if num_lt (performance sector) (Fin 0) then "auto" else "0".

End SectorPerformance.

(** ** Sample inputs *)

Definition dq : string := String "034"%char "".

(** The JSON text of a value whose strings need no escape, for the bodies
    of the sample responses. *)
Fixpoint stringify (v : value) : string :=
  match v with
  | VUndefined | VNull => "null"
  | VBool true => "true"
  | VBool false => "false"
  | VNum q => Number_toString q
  | VStr s => dq ++ s ++ dq
  | VArr items => "[" ++ join "," (map stringify items) ++ "]"
  | VObj props =>
      "{" ++ join "," (map (fun kv => dq ++ fst kv ++ dq ++ ":" ++ stringify (snd kv)) props)
      ++ "}"
  end.

Definition json_response (st : nat) (txt : string) (v : value) : Response :=
  mkResponse st txt (Some "application/json") (Some (stringify v)) (Some v)
    false [].

Definition text_response (st : nat) (txt ct body : string) : Response :=
  mkResponse st txt (Some ct) (Some body) None false [].

(** A 400 whose JSON payload carries a [message]. *)
Definition bad_request : Response :=
  json_response 400 "Bad Request" (VObj [("message", VStr "Invalid file")]).

(** A 200 whose body is not JSON. *)
Definition plain_200 : Response :=
  text_response 200 "OK" "text/plain" "Internal error".

(** A 502 error page of a proxy. *)
Definition html_502 : Response :=
  text_response 502 "Bad Gateway" "text/html; charset=utf-8"
    "<html><body>Bad Gateway</body></html>".

Definition failed_to_fetch : exn := mkExn TypeError "Failed to fetch".

(** No connection: every request rejects. *)
Definition offline : Network := fun _ => Throw failed_to_fetch.

(** A network that answers by the path of the request. *)
Definition routes (table : list (string * completion Response)) : Network :=
  fun req =>
    match find (fun entry => (API_URL ++ fst entry) =? url req) table with
    | Some entry => snd entry
    | None => Throw failed_to_fetch
    end.

Definition success_true : value := VObj [("success", VBool true)].

Definition sample_results : value :=
  VObj [("accuracy_rate", VNum (725 # 10)); ("total_signals", VNum 40);
        ("accurate_signals", VNum 29); ("long_accuracy", VNum 75);
        ("short_accuracy", VNum 68)].

Definition sample_signals : value :=
  VArr [VObj [("type", VStr "LONG")]; VObj [("type", VStr "SHORT")]].

(** The logout call is answered with success. *)
Definition logout_ok : Network :=
  routes [("/logout", Return (json_response 200 "OK" success_true))].

(** Upload, process and both fetches succeed. *)
Definition all_good : Network :=
  routes [("/upload-csv", Return (json_response 200 "OK" success_true));
          ("/process-csv", Return (json_response 200 "OK" success_true));
          ("/results", Return (json_response 200 "OK" sample_results));
          ("/signals", Return (json_response 200 "OK" sample_signals))].

(** The results fetch succeeds, the signals fetch is answered by a 500
    with a JSON payload. *)
Definition signals_fail : Network :=
  routes [("/upload-csv", Return (json_response 200 "OK" success_true));
          ("/process-csv", Return (json_response 200 "OK" success_true));
          ("/results", Return (json_response 200 "OK" sample_results));
          ("/signals", Return (json_response 500 "Internal Server Error"
                                 (VObj [("message", VStr "Database unavailable")])))].

(** The process call is answered by a 500 with a JSON payload. *)
Definition process_fails : Network :=
  routes [("/upload-csv", Return (json_response 200 "OK" success_true));
          ("/process-csv", Return (json_response 500 "Internal Server Error"
                                     (VObj [("message", VStr "Database unavailable")])))].

Definition trades : File := mkFile "trades.csv" "time,open,high,low,close".

Definition trades2 : File := mkFile "trades2.csv" "time,open,high,low,close".

(** A dashboard on which [trades] has been selected. *)
Definition selected : Dashboard.State :=
  snd (Dashboard.handleFileChange (Some trades) Dashboard.initial).

Definition logged_in : AuthContext.AuthState :=
  AuthContext.mkAuth (VStr "alice") false.

Definition sector_rows : value :=
  VArr [VObj [("sector", VStr "A"); ("performance", VNum 10)];
        VObj [("sector", VStr "B"); ("performance", VNum (-5))]].

Definition sector_summary : value :=
  VObj [("average_performance", VNum (25 # 10)); ("positive_sectors", VNum 1);
        ("negative_sectors", VNum 1)].

(** The weekly sector data is served, the daily requests time out. *)
Definition weekly_only : Network :=
  routes [("/sector-performance/7d",
           Return (json_response 200 "OK"
                     (VObj [("success", VBool true); ("data", sector_rows)])));
          ("/sector-summary/7d", Return (json_response 200 "OK" sector_summary))].

(** The panel after the weekly data has been shown. *)
Definition weekly_shown : SectorPerformance.State :=
  snd (SectorPerformance.handlePeriodChange weekly_only "7d"
         SectorPerformance.initial).

Definition two_entries : list SectorPerformance.Entry :=
  [SectorPerformance.mkEntry "A" (Fin 10); SectorPerformance.mkEntry "B" (Fin (-5))].

(** A 204: no body, no content type. *)
Definition no_content : Response :=
  mkResponse 204 "No Content" None None None false [].

(** A network that settles every request the same way. *)
Definition always (c : completion Response) : Network := fun _ => c.

(** The probe is answered for a logged-in user. *)
Definition probe_alice : Network :=
  routes [("/me", Return (json_response 200 "OK"
                            (VObj [("logged_in", VBool true);
                                   ("username", VStr "alice")])))].

(** The login is accepted. *)
Definition login_accepted : Network :=
  routes [("/login", Return (json_response 200 "OK"
                               (VObj [("success", VBool true);
                                      ("username", VStr "alice")])))].

(** The login is refused with a 401 that says why. *)
Definition login_refused : Network :=
  routes [("/login", Return (json_response 401 "Unauthorized"
                               (VObj [("detail", VStr "Wrong password")])))].

Definition logged_out : AuthContext.AuthState :=
  AuthContext.mkAuth VNull false.


(** The upload succeeds, the process call is answered with a bare refusal. *)
Definition processing_refused : Network :=
  routes [("/upload-csv", Return (json_response 200 "OK" success_true));
          ("/process-csv",
           Return (json_response 200 "OK" (VObj [("success", VBool false)])))].

(** Both sector fetches are answered, the series with the payload
    [null]. *)
Definition null_series : Network :=
  routes [("/sector-performance/7d",
           Return (mkResponse 200 "OK" (Some "application/json") (Some "null")
                     (Some VNull) false []));
          ("/sector-summary/7d", Return (json_response 200 "OK" sector_summary))].


(** The upload succeeds, the process call is answered with the payload
    [null]. *)
Definition processing_null : Network :=
  routes [("/upload-csv", Return (json_response 200 "OK" success_true));
          ("/process-csv",
           Return (mkResponse 200 "OK" (Some "application/json") (Some "null")
                     (Some VNull) false []))].

(** * Properties *)

(** ** The response resolver *)

(** A 2xx response whose unread body is JSON resolves with the parsed
    payload. *)
Lemma handleResponse_success (r : Response) (t : string) (v : value) :
  ok r = true ->
  body r = Some t ->
  bodyUsed r = false ->
  parsed r = Some v ->
  fst (handleResponse r) = Return v.
Proof.
  intros Hok Hbody Hused Hparsed.
  unfold handleResponse.
  cbv [bind get_state when ret try_catch throw Response_json called].
  rewrite Hok. cbn. rewrite Hbody, Hused, Hparsed. reflexivity.
Qed.

(** X3.  A 2xx response whose unread body is not JSON: [json()] has used
    the body up, so the [text()] of the handler rejects, and that
    [TypeError] is the rejection; the message with the snippet of the body
    is not produced. *)
Lemma handleResponse_invalid_JSON (r : Response) (t : string) :
  ok r = true ->
  body r = Some t ->
  bodyUsed r = false ->
  parsed r = None ->
  fst (handleResponse r) = Throw body_already_read.
Proof.
  intros Hok Hbody Hused Hparsed.
  unfold handleResponse.
  cbv [bind get_state when ret try_catch throw Response_json Response_text
       called consume].
  rewrite Hok. cbn. rewrite Hbody, Hused, Hparsed. reflexivity.
Qed.

(** X4.  A 2xx response without a body (a 204, say) is rejected with the
    [Invalid JSON response] error; the snippet is empty. *)
Lemma handleResponse_no_body (r : Response) :
  ok r = true ->
  body r = None ->
  fst (handleResponse r) = Throw (new_Error "Invalid JSON response: ...").
Proof.
  intros Hok Hbody.
  unfold handleResponse.
  cbv [bind get_state when ret try_catch throw Response_json Response_text
       called consume].
  rewrite Hok. cbn. rewrite Hbody. reflexivity.
Qed.

(** C8.  A response with a status outside 200-299 whose content type
    contains [text/html] is rejected with the error
    [Server error: <status> <statusText>], and neither [json()] nor [text()]
    has been called on it: the response object is as it was. *)
Theorem handleResponse_html_error_page (r : Response) :
  ok r = false ->
  declares (content_type r) "text/html" = true ->
  handleResponse r
  = (Throw (new_Error ("Server error: " ++ nat_to_string (status r) ++ " "
                       ++ statusText r)), r)
  /\ calls (snd (handleResponse r)) = calls r.
Proof.
  intros Hok Hhtml.
  assert (H : handleResponse r
              = (Throw (new_Error ("Server error: " ++ nat_to_string (status r)
                                   ++ " " ++ statusText r)), r)).
  { unfold handleResponse, bind, get_state. cbn.
    rewrite Hok, Hhtml. reflexivity. }
  split; [exact H | now rewrite H].
Qed.

Lemma handleResponse_html_error_page_witness :
  ok html_502 = false /\
  declares (content_type html_502) "text/html" = true /\
  fst (handleResponse html_502) = Throw (new_Error "Server error: 502 Bad Gateway") /\
  calls (snd (handleResponse html_502)) = [].
Proof.
  split; [reflexivity | split; [reflexivity | ]].
  destruct (handleResponse_html_error_page html_502 eq_refl eq_refl) as [H1 H2].
  split.
  - rewrite H1. reflexivity.
  - exact H2.
Defined.

(** C10.  A response with a status outside 200-299 whose content type does
    not contain [text/html] is rejected with the error
    [HTTP <status>: <statusText>], whatever its body is: the [throw] that
    carries the payload's message sits inside the [try] whose [catch]
    replaces it. *)
Theorem handleResponse_error_status_ignores_body (r : Response) :
  ok r = false ->
  declares (content_type r) "text/html" = false ->
  fst (handleResponse r)
  = Throw (new_Error ("HTTP " ++ nat_to_string (status r) ++ ": " ++ statusText r)).
Proof.
  intros Hok Hhtml.
  unfold handleResponse.
  cbv [bind get_state when ret try_catch throw JS_or await].
  rewrite Hok, Hhtml. cbn [negb].
  destruct (Response_json r) as [[errorData | e] r']; [ | reflexivity].
  destruct (get_prop errorData "message") as [m | e]; [ | reflexivity].
  destruct (truthy m); [reflexivity | ].
  destruct (get_prop errorData "detail") as [d | e]; [ | reflexivity].
  destruct (truthy d); reflexivity.
Qed.

Lemma handleResponse_error_status_ignores_body_witness :
  fst (handleResponse bad_request) = Throw (new_Error "HTTP 400: Bad Request").
Proof.
  exact (handleResponse_error_status_ignores_body bad_request eq_refl eq_refl).
Defined.

(** C2.  On a 400 whose JSON payload is [{message: 'Invalid file'}] the
    rejection carries [HTTP 400: Bad Request], not the payload's message:
    [json()] was called and the payload parsed, but its message is lost. *)
Theorem handleResponse_loses_payload_message :
  parsed bad_request = Some (VObj [("message", VStr "Invalid file")]) /\
  fst (handleResponse bad_request) = Throw (new_Error "HTTP 400: Bad Request") /\
  fst (handleResponse bad_request) <> Throw (new_Error "Invalid file") /\
  calls (snd (handleResponse bad_request)) = [json_call].
Proof.
  repeat split; try reflexivity. discriminate.
Qed.

(** C6.  On a 200 whose body [Internal error] is not JSON, [json()] has read
    the body before it fails, so the [text()] of the [catch] block rejects
    and that [TypeError] is what the caller gets, not
    [Invalid JSON response: Internal error...]. *)
Theorem handleResponse_invalid_JSON_loses_snippet :
  ok plain_200 = true /\
  parsed plain_200 = None /\
  fst (handleResponse plain_200) = Throw body_already_read /\
  fst (handleResponse plain_200)
  <> Throw (new_Error ("Invalid JSON response: " ++ "Internal error" ++ "...")) /\
  calls (snd (handleResponse plain_200)) = [text_call; json_call].
Proof.
  repeat split; try reflexivity. discriminate.
Qed.

(** ** The session store *)

(** C3, as stated, fails.  With no connection the logout request rejects;
    [logout] then returns [false] and [alice] is still the current user. *)
Lemma logout_offline_stays_authenticated :
  AuthContext.session logged_in = AuthContext.Authenticated (VStr "alice") /\
  api.logout offline = Throw failed_to_fetch /\
  AuthContext.session (snd (AuthContext.logout offline logged_in))
  <> AuthContext.Anonymous.
Proof.
  repeat split. discriminate.
Qed.

(** C3, amended.  [logout] clears the user, and returns [true], exactly when
    the underlying call resolves; the session is then Anonymous.  When the
    call rejects, [logout] returns [false] and leaves the session as it
    was. *)
Theorem logout_clears_user_when_call_resolves
  (net : Network) (a : AuthContext.AuthState) :
  match api.logout net with
  | Return _ =>
      AuthContext.logout net a = (Return true, AuthContext.setUser VNull a)
      /\ (AuthContext.loading a = false ->
          AuthContext.session (snd (AuthContext.logout net a))
          = AuthContext.Anonymous)
  | Throw _ =>
      AuthContext.logout net a = (Return false, a)
  end.
Proof.
  unfold AuthContext.logout.
  cbv [bind try_catch await modify ret].
  destruct (api.logout net) as [v | e]; [ | reflexivity].
  split; [reflexivity | ].
  intros Hl. unfold AuthContext.session. cbn. now rewrite Hl.
Qed.

Lemma logout_clears_user_when_call_resolves_witness :
  AuthContext.session (snd (AuthContext.logout logout_ok logged_in))
  = AuthContext.Anonymous /\
  AuthContext.logout offline logged_in = (Return false, logged_in).
Proof.
  split.
  - exact (proj2 (logout_clears_user_when_call_resolves logout_ok logged_in)
             eq_refl).
  - exact (logout_clears_user_when_call_resolves offline logged_in).
Defined.

(** ** The dashboard workflow *)

(** C4, as stated, fails.  After a run that ended in Failed, selecting
    another file keeps the error: the stage is still Failed, not Idle. *)
Lemma handleFileChange_keeps_failure :
  let failed := snd (Dashboard.handleUpload process_fails selected) in
  let after := snd (Dashboard.handleFileChange (Some trades2) failed) in
  Dashboard.stage failed = Dashboard.Failed /\
  Dashboard.file after = Some trades2 /\
  Dashboard.error after = VStr "An error occurred during processing" /\
  Dashboard.stage after <> Dashboard.Idle.
Proof.
  repeat split. discriminate.
Qed.

(** C4, amended.  Selecting a file stores the file and its name and nothing
    else: results, signals, chart reference, error and the two busy flags
    are as before, and so is the stage. *)
Theorem handleFileChange_only_sets_file
  (selectedFile : File) (s : Dashboard.State) :
  let after := snd (Dashboard.handleFileChange (Some selectedFile) s) in
  Dashboard.file after = Some selectedFile /\
  Dashboard.fileName after = file_name selectedFile /\
  Dashboard.results after = Dashboard.results s /\
  Dashboard.signals after = Dashboard.signals s /\
  Dashboard.chartUrl after = Dashboard.chartUrl s /\
  Dashboard.error after = Dashboard.error s /\
  Dashboard.uploading after = Dashboard.uploading s /\
  Dashboard.processing after = Dashboard.processing s /\
  Dashboard.stage after = Dashboard.stage s.
Proof.
  cbn. repeat split.
Qed.

Ltac run_handler :=
  cbv [bind try_catch try_finally await modify ret get_state JS_or when].

(** The two ways [handleProcess] can end: with the data of this run and no
    error, or with an error and the data it started from. *)
Lemma handleProcess_cases (net : Network) (s : Dashboard.State) :
  let after := snd (Dashboard.handleProcess net s) in
  (Dashboard.reports_success (api.processCSV net) /\
   exists resultsData signalsData,
     api.getResults net = Return resultsData /\
     api.getSignals net = Return signalsData /\
     after = Dashboard.mkState (Dashboard.file s) (Dashboard.fileName s)
               (Dashboard.uploading s) false (VStr "") resultsData signalsData
               (API_URL ++ "/chart-iframe"))
  \/
  (truthy (Dashboard.error after) = true /\
   after = Dashboard.mkState (Dashboard.file s) (Dashboard.fileName s)
             (Dashboard.uploading s) false (Dashboard.error after)
             (Dashboard.results s) (Dashboard.signals s) (Dashboard.chartUrl s)).
Proof.
  cbv zeta. unfold Dashboard.handleProcess. run_handler.
  destruct (api.processCSV net) as [result | e]; [ | right; split; reflexivity].
  destruct (get_prop result "success") as [success | e] eqn:Hsuccess;
    [ | right; split; reflexivity].
  destruct (truthy success) eqn:Htruthy.
  - destruct (api.getResults net) as [resultsData | e];
      [ | right; split; reflexivity].
    destruct (api.getSignals net) as [signalsData | e];
      [ | right; split; reflexivity].
    left. split.
    + exists result, success. repeat split; assumption.
    + exists resultsData, signalsData. repeat split.
  - destruct (get_prop result "error") as [m | e];
      [ | right; split; reflexivity].
    destruct (truthy m) eqn:Hm; right; split; try reflexivity.
    cbn. exact Hm.
Qed.

(** A rejection of the process call, or of either fetch after it, ends
    [handleProcess] with the fixed message and the data it started from. *)
Lemma handleProcess_rejection (net : Network) (s : Dashboard.State) :
  (exists e, api.processCSV net = Throw e) \/
  (Dashboard.reports_success (api.processCSV net) /\
   ((exists e, api.getResults net = Throw e) \/
    (exists e, api.getSignals net = Throw e))) ->
  snd (Dashboard.handleProcess net s)
  = Dashboard.mkState (Dashboard.file s) (Dashboard.fileName s)
      (Dashboard.uploading s) false
      (VStr "An error occurred during processing")
      (Dashboard.results s) (Dashboard.signals s) (Dashboard.chartUrl s).
Proof.
  unfold Dashboard.handleProcess. run_handler.
  intros [[e He] | [(result & success & Hp & Hs & Ht) Hfetch]].
  - rewrite He. reflexivity.
  - rewrite Hp, Hs, Ht.
    destruct Hfetch as [[e He] | [e He]]; rewrite He.
    + reflexivity.
    + destruct (api.getResults net); reflexivity.
Qed.

(** [handleProcess] catches whatever is thrown inside it. *)
Lemma handleProcess_returns (net : Network) (s : Dashboard.State) :
  fst (Dashboard.handleProcess net s) = Return tt.
Proof.
  unfold Dashboard.handleProcess. run_handler.
  destruct (api.processCSV net) as [result | e]; [ | reflexivity].
  destruct (get_prop result "success") as [success | e]; [ | reflexivity].
  destruct (truthy success).
  - destruct (api.getResults net); [ | reflexivity].
    destruct (api.getSignals net); reflexivity.
  - destruct (get_prop result "error") as [m | e]; [ | reflexivity].
    destruct (truthy m); reflexivity.
Qed.

(** After an upload that reports success, [handleUpload] is [handleProcess]
    between the two settings of [uploading]. *)
Lemma handleUpload_then_process
  (net : Network) (s : Dashboard.State) (f : File) :
  Dashboard.file s = Some f ->
  Dashboard.reports_success (api.uploadCSV net f) ->
  snd (Dashboard.handleUpload net s)
  = Dashboard.setUploading false
      (snd (Dashboard.handleProcess net
              (Dashboard.setUploading true (Dashboard.setError (VStr "") s)))).
Proof.
  intros Hfile (result & success & Hu & Hs & Ht).
  unfold Dashboard.handleUpload. run_handler.
  rewrite Hfile. run_handler. rewrite Hu, Hs, Ht.
  pose proof (handleProcess_returns net
                (Dashboard.setUploading true (Dashboard.setError (VStr "") s)))
    as Hret.
  destruct (Dashboard.handleProcess net _) as [c s1].
  cbn in Hret. subst c. reflexivity.
Qed.

(** [handleUpload] without a successful upload ends with an error set. *)
Lemma handleUpload_without_upload (net : Network) (s : Dashboard.State) :
  (forall f, Dashboard.file s = Some f ->
             ~ Dashboard.reports_success (api.uploadCSV net f)) ->
  truthy (Dashboard.error (snd (Dashboard.handleUpload net s))) = true.
Proof.
  intros Hno.
  unfold Dashboard.handleUpload. run_handler.
  destruct (Dashboard.file s) as [f | ] eqn:Hfile; [ | reflexivity].
  specialize (Hno f eq_refl). run_handler.
  destruct (api.uploadCSV net f) as [result | e]; [ | reflexivity].
  destruct (get_prop result "success") as [success | e] eqn:Hs; [ | reflexivity].
  destruct (truthy success) eqn:Ht.
  - exfalso. apply Hno. exists result, success. repeat split; assumption.
  - destruct (get_prop result "message") as [m | e]; [ | reflexivity].
    destruct (truthy m) eqn:Hm; [exact Hm | reflexivity].
Qed.

Lemma reports_success_dec (c : completion value) :
  Dashboard.reports_success c \/ ~ Dashboard.reports_success c.
Proof.
  destruct c as [result | e].
  - destruct (get_prop result "success") as [success | e] eqn:Hs.
    + destruct (truthy success) eqn:Ht.
      * left. exists result, success. repeat split; assumption.
      * right. intros (r & v & Hr & Hv & Hv'). injection Hr as <-.
        rewrite Hs in Hv. injection Hv as <-. congruence.
    + right. intros (r & v & Hr & Hv & _). injection Hr as <-. congruence.
  - right. intros (r & v & Hr & _). discriminate.
Qed.

Lemma stage_Ready_fields (s : Dashboard.State) :
  Dashboard.stage s = Dashboard.Ready -> truthy (Dashboard.error s) = false.
Proof.
  unfold Dashboard.stage.
  destruct (Dashboard.processing s); [discriminate | ].
  destruct (Dashboard.uploading s); [discriminate | ].
  destruct (truthy (Dashboard.error s)); [discriminate | reflexivity].
Qed.

(** C1, as stated, fails.  A first run goes through; in a second run the
    results fetch succeeds and the signals fetch fails.  The second run ends
    in Failed, and [results] is not null: results, signals and chart
    reference of the first run are still there. *)
Lemma signals_failure_after_success_keeps_results :
  let first := snd (Dashboard.handleUpload all_good selected) in
  let second := snd (Dashboard.handleUpload signals_fail first) in
  api.getResults signals_fail = Return sample_results /\
  api.getSignals signals_fail = Throw (new_Error "HTTP 500: Internal Server Error") /\
  Dashboard.stage second = Dashboard.Failed /\
  Dashboard.results second <> VNull /\
  Dashboard.results second = Dashboard.results first /\
  Dashboard.signals second = sample_signals /\
  Dashboard.chartUrl second = "http://localhost:8000/chart-iframe".
Proof.
  cbv zeta. repeat split. discriminate.
Qed.

(** C1, amended.  A run started by [handleUpload] ends in Ready only if the
    process call reported success and both the results fetch and the signals
    fetch resolved; results, signals and chart reference are then those of
    this run.  If, after a successful upload and process call, the results
    fetch or the signals fetch rejects, the run ends in Failed, and results,
    signals and chart reference are what they were before the run: nothing
    the failed run fetched is kept, [results] is null when it was null, and
    what an earlier run stored stays. *)
Theorem run_ready_needs_both_fetches (net : Network) (s : Dashboard.State) :
  let after := snd (Dashboard.handleUpload net s) in
  (Dashboard.stage after = Dashboard.Ready ->
   Dashboard.reports_success (api.processCSV net) /\
   exists resultsData signalsData,
     api.getResults net = Return resultsData /\
     api.getSignals net = Return signalsData /\
     Dashboard.results after = resultsData /\
     Dashboard.signals after = signalsData /\
     Dashboard.chartUrl after = API_URL ++ "/chart-iframe")
  /\
  (forall f,
     Dashboard.file s = Some f ->
     Dashboard.reports_success (api.uploadCSV net f) ->
     Dashboard.reports_success (api.processCSV net) ->
     (exists e, api.getResults net = Throw e) \/
     (exists e, api.getSignals net = Throw e) ->
     Dashboard.stage after = Dashboard.Failed /\
     Dashboard.results after = Dashboard.results s /\
     Dashboard.signals after = Dashboard.signals s /\
     Dashboard.chartUrl after = Dashboard.chartUrl s /\
     (Dashboard.results s = VNull -> Dashboard.results after = VNull)).
Proof.
  cbv zeta. split.
  - intros Hready. apply stage_Ready_fields in Hready.
    destruct (Dashboard.file s) as [f | ] eqn:Hfile.
    + destruct (reports_success_dec (api.uploadCSV net f)) as [Hup | Hup].
      * rewrite (handleUpload_then_process net s f Hfile Hup) in Hready |- *.
        destruct (handleProcess_cases net
                    (Dashboard.setUploading true (Dashboard.setError (VStr "") s)))
          as [(Hp & rd & sd & Hr & Hs & Hafter) | (Herr & _)].
        -- split; [exact Hp | ]. exists rd, sd. rewrite Hafter.
           repeat split; assumption.
        -- unfold Dashboard.setUploading at 1 in Hready.
           cbn [Dashboard.error] in Hready. congruence.
      * rewrite handleUpload_without_upload in Hready; [discriminate | ].
        intros f' Hf'. congruence.
    + rewrite handleUpload_without_upload in Hready; [discriminate | ].
      intros f' Hf'. congruence.
  - intros f Hfile Hup Hp Hfetch.
    rewrite (handleUpload_then_process net s f Hfile Hup).
    rewrite handleProcess_rejection by (right; split; assumption).
    repeat split. intros H; exact H.
Qed.

(** The scenario of the claim: upload and process succeed, the results fetch
    succeeds, the signals fetch fails; the run ends in Failed with [results]
    null. *)
Lemma run_ready_needs_both_fetches_witness :
  let after := snd (Dashboard.handleUpload signals_fail selected) in
  api.getResults signals_fail = Return sample_results /\
  api.getSignals signals_fail = Throw (new_Error "HTTP 500: Internal Server Error") /\
  Dashboard.stage after = Dashboard.Failed /\
  Dashboard.results after = VNull.
Proof.
  cbv zeta.
  split; [reflexivity | split; [reflexivity | ]].
  assert (Hok : Dashboard.reports_success (Return success_true)).
  { exists success_true, (VBool true). repeat split. }
  destruct (proj2 (run_ready_needs_both_fetches signals_fail selected)
              trades eq_refl Hok Hok
              (or_intror (ex_intro _ (new_Error "HTTP 500: Internal Server Error") eq_refl)))
    as (Hstage & _ & _ & _ & Hnull).
  split.
  - exact Hstage.
  - apply Hnull. reflexivity.
Defined.

(** The scenario of a complete run: upload, process and both fetches
    succeed; the dashboard is Ready and the chart reference is the iframe
    endpoint without an upload id. *)
Example full_run_is_ready :
  let after := snd (Dashboard.handleUpload all_good selected) in
  Dashboard.stage after = Dashboard.Ready /\
  Dashboard.results after = sample_results /\
  Dashboard.signals after = sample_signals /\
  Dashboard.chartUrl after = "http://localhost:8000/chart-iframe".
Proof. cbv zeta. repeat split. Qed.

(** C9, as stated, fails.  The process call is answered by a 500 whose
    payload says [Database unavailable]; the resolver classifies it as
    [HTTP 500: Internal Server Error]; the dashboard ends in Failed and shows
    neither of the two. *)
Lemma failure_message_is_not_the_classified_one :
  let after := snd (Dashboard.handleUpload process_fails selected) in
  api.processCSV process_fails
  = Throw (new_Error "HTTP 500: Internal Server Error") /\
  Dashboard.stage after = Dashboard.Failed /\
  Dashboard.error after = VStr "An error occurred during processing" /\
  Dashboard.error after <> VStr "HTTP 500: Internal Server Error" /\
  Dashboard.error after <> VStr "Database unavailable".
Proof.
  cbv zeta. repeat split; discriminate.
Qed.

(** C9, amended.  The message shown after a rejected call is fixed by the
    step that failed and does not depend on the error: the upload message
    when the upload call rejects, the processing message when the process
    call or one of the two fetches rejects.  Without a selected file the
    message is the fixed validation message. *)
Theorem failure_message_is_fixed_per_step (net : Network) (s : Dashboard.State) :
  let after := snd (Dashboard.handleUpload net s) in
  (Dashboard.file s = None ->
   Dashboard.error after = VStr "Please select a file to upload")
  /\
  (forall f e,
     Dashboard.file s = Some f ->
     api.uploadCSV net f = Throw e ->
     Dashboard.error after = VStr "An error occurred during upload")
  /\
  (forall f,
     Dashboard.file s = Some f ->
     Dashboard.reports_success (api.uploadCSV net f) ->
     (exists e, api.processCSV net = Throw e) \/
     (Dashboard.reports_success (api.processCSV net) /\
      ((exists e, api.getResults net = Throw e) \/
       (exists e, api.getSignals net = Throw e))) ->
     Dashboard.error after = VStr "An error occurred during processing" /\
     Dashboard.stage after = Dashboard.Failed).
Proof.
  cbv zeta. split; [ | split].
  - intros Hfile. unfold Dashboard.handleUpload. run_handler.
    rewrite Hfile. reflexivity.
  - intros f e Hfile Hup. unfold Dashboard.handleUpload. run_handler.
    rewrite Hfile. run_handler. rewrite Hup. reflexivity.
  - intros f Hfile Hup Hrej.
    rewrite (handleUpload_then_process net s f Hfile Hup).
    rewrite (handleProcess_rejection net _ Hrej).
    split; reflexivity.
Qed.

Lemma failure_message_is_fixed_per_step_witness :
  Dashboard.error (snd (Dashboard.handleUpload process_fails selected))
  = VStr "An error occurred during processing" /\
  Dashboard.error (snd (Dashboard.handleUpload offline selected))
  = VStr "An error occurred during upload" /\
  Dashboard.error (snd (Dashboard.handleUpload offline Dashboard.initial))
  = VStr "Please select a file to upload".
Proof.
  split; [ | split].
  - assert (Hok : Dashboard.reports_success (api.uploadCSV process_fails trades)).
    { exists success_true, (VBool true). repeat split. }
    exact (proj1 (proj2 (proj2 (failure_message_is_fixed_per_step
                                  process_fails selected))
                    trades eq_refl Hok
                    (or_introl (ex_intro _ (new_Error "HTTP 500: Internal Server Error")
                                  eq_refl)))).
  - exact (proj1 (proj2 (failure_message_is_fixed_per_step offline selected))
             trades failed_to_fetch eq_refl eq_refl).
  - exact (proj1 (failure_message_is_fixed_per_step offline Dashboard.initial)
             eq_refl).
Defined.

(** ** The sector panel *)

(** C5, as stated, fails.  The weekly data is on display; the period is
    changed to [1d] and both requests time out.  The error is set, and the
    weekly rows and summary are still there. *)
Lemma fetchData_failure_keeps_old_data :
  let after := snd (SectorPerformance.handlePeriodChange weekly_only "1d"
                      weekly_shown) in
  SectorPerformance.sectorData weekly_shown = sector_rows /\
  sectorApi.fetchSectorData weekly_only "1d" = Throw failed_to_fetch /\
  SectorPerformance.error after = "Failed to fetch sector data" /\
  SectorPerformance.sectorData after = sector_rows /\
  SectorPerformance.summary after = sector_summary /\
  ~ (SectorPerformance.sectorData after = VArr [] /\
     SectorPerformance.summary after = VNull).
Proof.
  cbv zeta. repeat split. intros [H _]. discriminate.
Qed.

(** C5, amended.  When the series fetch or the summary fetch rejects,
    [fetchData] sets the error and ends the loading; entries and summary
    are left as they were. *)
Theorem fetchData_rejection_sets_error_only
  (net : Network) (selectedPeriod : string) (s : SectorPerformance.State) :
  (exists e, sectorApi.fetchSectorData net selectedPeriod = Throw e) \/
  (exists e, sectorApi.fetchSectorSummary net selectedPeriod = Throw e) ->
  snd (SectorPerformance.fetchData net selectedPeriod s)
  = SectorPerformance.mkState (SectorPerformance.period s)
      (SectorPerformance.sectorData s) (SectorPerformance.summary s)
      false "Failed to fetch sector data".
Proof.
  unfold SectorPerformance.fetchData. run_handler.
  intros [[e He] | [e He]]; rewrite He.
  - reflexivity.
  - destruct (sectorApi.fetchSectorData net selectedPeriod); reflexivity.
Qed.

Lemma fetchData_rejection_sets_error_only_witness :
  snd (SectorPerformance.fetchData weekly_only "1d" weekly_shown)
  = SectorPerformance.mkState "7d" sector_rows sector_summary false
      "Failed to fetch sector data".
Proof.
  exact (fetchData_rejection_sets_error_only weekly_only "1d" weekly_shown
           (or_introl (ex_intro _ failed_to_fetch eq_refl))).
Defined.

(** [Math.max] over finite numbers, from a finite start: the result is one
    of the numbers and bounds them all. *)
Lemma fold_num_max_Fin (qs : list Q) (a : Q) :
  exists m : Q,
    fold_left num_max (map Fin qs) (Fin a) = Fin m /\
    In m (a :: qs) /\
    (forall x, In x (a :: qs) -> (x <= m)%Q).
Proof.
  revert a. induction qs as [ | q qs IH]; intros a.
  - exists a. cbn. repeat split; [now left | ].
    intros x [<- | []]. apply Qle_refl.
  - destruct (IH (Qmax a q)) as (m & Hfold & Hin & Hbound).
    exists m. cbn [map fold_left num_max]. split; [exact Hfold | ]. split.
    + destruct Hin as [Hm | Hm]; [ | right; now right].
      subst m. unfold Qmax, GenericMinMax.gmax.
      destruct (a ?= q)%Q; [now left | right; now left | now left].
    + intros x [<- | [<- | Hx]].
      * apply Qle_trans with (Qmax a q); [apply Q.le_max_l | ].
        apply Hbound. now left.
      * apply Qle_trans with (Qmax a q); [apply Q.le_max_r | ].
        apply Hbound. now left.
      * apply Hbound. now right.
Qed.

(** A list of entries whose performances are all numbers. *)
Lemma numeric_performances (sectorData : list SectorPerformance.Entry) :
  (forall x, In x sectorData -> exists q, SectorPerformance.performance x = Fin q) ->
  exists qs, map SectorPerformance.performance sectorData = map Fin qs.
Proof.
  induction sectorData as [ | e rest IH]; intros Hnum.
  - now exists [].
  - destruct (Hnum e (or_introl eq_refl)) as [q Hq].
    destruct IH as [qs Hqs]; [intros x Hx; apply Hnum; now right | ].
    exists (q :: qs). cbn [map]. now rewrite Hq, Hqs.
Qed.

Lemma maxPerformance_is_max_abs (sectorData : list SectorPerformance.Entry) :
  sectorData <> [] ->
  (forall x, In x sectorData -> exists q, SectorPerformance.performance x = Fin q) ->
  exists m : Q,
    SectorPerformance.maxPerformance sectorData = Fin m /\
    (exists x q, In x sectorData /\ SectorPerformance.performance x = Fin q /\
                 m = Qabs q) /\
    (forall x q, In x sectorData -> SectorPerformance.performance x = Fin q ->
                 (Qabs q <= m)%Q).
Proof.
  intros Hne Hnum.
  destruct (numeric_performances sectorData Hnum) as [qs Hqs].
  assert (Habs : map (fun item => Math_abs (SectorPerformance.performance item)) sectorData
                 = map Fin (map Qabs qs)).
  { rewrite <- (map_map SectorPerformance.performance Math_abs), Hqs.
    rewrite !map_map. reflexivity. }
  assert (Hin_qs : forall q, In q qs <->
            exists x, In x sectorData /\ SectorPerformance.performance x = Fin q).
  { intros q. split.
    - intros Hq. assert (H : In (Fin q) (map Fin qs)) by now apply in_map.
      rewrite <- Hqs in H. apply in_map_iff in H.
      destruct H as (x & Hx & Hin). now exists x.
    - intros (x & Hx & Hq).
      assert (H : In (Fin q) (map SectorPerformance.performance sectorData))
        by (rewrite <- Hq; now apply in_map).
      rewrite Hqs in H. apply in_map_iff in H.
      destruct H as (q' & Hq' & Hin). now injection Hq' as <-. }
  unfold SectorPerformance.maxPerformance, Math_max. rewrite Habs.
  destruct sectorData as [ | e0 rest]; [congruence | ].
  destruct qs as [ | q0 qs]; [discriminate | ].
  cbn [length Nat.ltb Nat.leb map fold_left num_max].
  destruct (fold_num_max_Fin (map Qabs qs) (Qabs q0)) as (m & Hfold & Hm & Hbound).
  exists m. split; [exact Hfold | ]. split.
  - assert (Hq : exists q, In q (q0 :: qs) /\ m = Qabs q).
    { destruct Hm as [Hm | Hm].
      - exists q0. split; [now left | now symmetry].
      - apply in_map_iff in Hm. destruct Hm as (q & Hq & Hin).
        exists q. split; [now right | now symmetry]. }
    destruct Hq as (q & Hq & ->).
    apply Hin_qs in Hq. destruct Hq as (x & Hx & Hxq). now exists x, q.
  - intros x q Hx Hq. apply Hbound.
    assert (H : In q (q0 :: qs)) by (apply Hin_qs; now exists x).
    destruct H as [<- | H]; [now left | right; now apply in_map].
Qed.

(** *** Rounding to a double *)

Ltac compared H :=
  first [apply Qeq_alt in H | apply Qlt_alt in H | apply Qgt_alt in H].

Lemma pow2_pos (e : Z) : (0 < 2 ^ e)%Q.
Proof. apply Qpower_0_lt. reflexivity. Qed.

Lemma pow2_add (a b : Z) : (2 ^ (a + b) == 2 ^ a * 2 ^ b)%Q.
Proof. apply Qpower_plus. discriminate. Qed.

Lemma pow2_le (a b : Z) : (a <= b)%Z -> (2 ^ a <= 2 ^ b)%Q.
Proof. intros H. apply Qpower_le_compat_l; [exact H | discriminate]. Qed.

Lemma pow2_Z (n : Z) : (0 <= n)%Z -> (2 ^ n == inject_Z (2 ^ n))%Q.
Proof. intros H. symmetry. apply (Zpower_Qpower 2 n H). Qed.

Lemma rne_cases (x : Q) : rne x = Qfloor x \/ rne x = (Qfloor x + 1)%Z.
Proof.
  unfold rne. destruct (Qcompare _ _); [ | now left | now right].
  destruct (Z.even _); [now left | now right].
Qed.

Lemma rne_Z (n : Z) : rne (inject_Z n) = n.
Proof.
  unfold rne. rewrite Qfloor_Z.
  destruct (Qcompare (inject_Z n - inject_Z n) (1 # 2)) eqn:C;
    [apply Qeq_alt in C | reflexivity | apply Qgt_alt in C]; exfalso; lra.
Qed.

Lemma rne_mono (x y : Q) : (x <= y)%Q -> (rne x <= rne y)%Z.
Proof.
  intros Hxy.
  pose proof (Qfloor_resp_le x y Hxy) as Hf.
  destruct (Z.eq_dec (Qfloor x) (Qfloor y)) as [E | NE].
  - unfold rne. rewrite E.
    destruct (Qcompare (x - inject_Z (Qfloor y)) (1 # 2)) eqn:Cx;
      destruct (Qcompare (y - inject_Z (Qfloor y)) (1 # 2)) eqn:Cy;
      compared Cx; compared Cy; try (exfalso; lra);
      destruct (Z.even (Qfloor y)); lia.
  - destruct (rne_cases x) as [-> | ->]; destruct (rne_cases y) as [-> | ->]; lia.
Qed.

Lemma ilog2_spec (q : Q) :
  (0 < q)%Q -> (2 ^ ilog2 q <= q)%Q /\ (q < 2 ^ (ilog2 q + 1))%Q.
Proof.
  intros Hq. destruct q as [a b].
  assert (Ha : (0 < a)%Z) by (unfold Qlt in Hq; cbn in Hq; lia).
  unfold ilog2. cbn [Qnum Qden].
  set (la := Z.log2 a). set (lb := Z.log2 (Z.pos b)).
  pose proof (Z.log2_spec a Ha) as [Ha1 Ha2]. fold la in Ha1, Ha2.
  pose proof (Z.log2_spec (Z.pos b) (Pos2Z.is_pos b)) as [Hb1 Hb2].
  fold lb in Hb1, Hb2.
  pose proof (Z.log2_nonneg a) as Hla. fold la in Hla.
  pose proof (Z.log2_nonneg (Z.pos b)) as Hlb. fold lb in Hlb.
  assert (Hq' : (a # b == inject_Z a / inject_Z (Z.pos b))%Q) by apply Qmake_Qdiv.
  assert (Hbpos : (0 < inject_Z (Z.pos b))%Q) by (rewrite <- (Zlt_Qlt 0); lia).
  assert (A1 : (2 ^ la <= inject_Z a)%Q).
  { rewrite (pow2_Z la Hla). rewrite <- Zle_Qle. exact Ha1. }
  assert (A2 : (inject_Z a < 2 ^ (la + 1))%Q).
  { rewrite (pow2_Z (la + 1)) by lia. rewrite <- Zlt_Qlt. exact Ha2. }
  assert (B1 : (2 ^ lb <= inject_Z (Z.pos b))%Q).
  { rewrite (pow2_Z lb Hlb). rewrite <- Zle_Qle. exact Hb1. }
  assert (B2 : (inject_Z (Z.pos b) < 2 ^ (lb + 1))%Q).
  { rewrite (pow2_Z (lb + 1)) by lia. rewrite <- Zlt_Qlt. exact Hb2. }
  assert (Low : (2 ^ (la - lb - 1) <= a # b)%Q).
  { rewrite Hq'. apply Qle_shift_div_l; [exact Hbpos | ].
    apply Qle_trans with (2 ^ (la - lb - 1) * 2 ^ (lb + 1))%Q.
    - apply Qmult_le_l; [apply pow2_pos | now apply Qlt_le_weak].
    - rewrite <- pow2_add. replace (la - lb - 1 + (lb + 1))%Z with la by lia.
      exact A1. }
  assert (High : (a # b < 2 ^ (la - lb + 1))%Q).
  { rewrite Hq'. apply Qlt_shift_div_r; [exact Hbpos | ].
    apply Qlt_le_trans with (2 ^ (la + 1))%Q; [exact A2 | ].
    replace (la + 1)%Z with (la - lb + 1 + lb)%Z at 1 by lia.
    rewrite pow2_add.
    apply Qmult_le_l; [apply pow2_pos | exact B1]. }
  destruct (Qle_bool (2 ^ (la - lb)) (a # b)) eqn:T.
  - apply Qle_bool_iff in T. split; [exact T | exact High].
  - split; [exact Low | ].
    replace (la - lb - 1 + 1)%Z with (la - lb)%Z by lia.
    apply Qnot_le_lt. intros H. apply Qle_bool_iff in H. congruence.
Qed.

Lemma ilog2_mono (x y : Q) :
  (0 < x)%Q -> (x <= y)%Q -> (ilog2 x <= ilog2 y)%Z.
Proof.
  intros Hx Hxy.
  destruct (ilog2_spec x Hx) as [X1 _].
  destruct (ilog2_spec y) as [_ Y2]; [lra | ].
  assert (H : (2 ^ ilog2 x < 2 ^ (ilog2 y + 1))%Q) by lra.
  apply Qpower_lt_compat_l_inv in H; [lia | reflexivity].
Qed.

(** Rounding to the grid of step [2 ^ p] does not cross a power of two that
    is on the grid. *)
Lemma grid_le_pow (x : Q) (p k : Z) :
  (p <= k)%Z -> (x <= 2 ^ k)%Q ->
  (inject_Z (rne (x / 2 ^ p)) * 2 ^ p <= 2 ^ k)%Q.
Proof.
  intros Hpk Hx.
  assert (E : (2 ^ k == inject_Z (2 ^ (k - p)) * 2 ^ p)%Q).
  { rewrite <- pow2_Z by lia. rewrite <- pow2_add.
    now replace (k - p + p)%Z with k by lia. }
  rewrite E. apply Qmult_le_compat_r; [ | apply Qlt_le_weak, pow2_pos].
  rewrite <- Zle_Qle. rewrite <- (rne_Z (2 ^ (k - p))). apply rne_mono.
  apply Qle_shift_div_r; [apply pow2_pos | ]. now rewrite <- E.
Qed.

Lemma grid_ge_pow (x : Q) (p k : Z) :
  (p <= k)%Z -> (2 ^ k <= x)%Q ->
  (2 ^ k <= inject_Z (rne (x / 2 ^ p)) * 2 ^ p)%Q.
Proof.
  intros Hpk Hx.
  assert (E : (2 ^ k == inject_Z (2 ^ (k - p)) * 2 ^ p)%Q).
  { rewrite <- pow2_Z by lia. rewrite <- pow2_add.
    now replace (k - p + p)%Z with k by lia. }
  rewrite E. apply Qmult_le_compat_r; [ | apply Qlt_le_weak, pow2_pos].
  rewrite <- Zle_Qle. rewrite <- (rne_Z (2 ^ (k - p))) at 1. apply rne_mono.
  apply Qle_shift_div_l; [apply pow2_pos | ]. now rewrite <- E.
Qed.

Lemma round_pos_mono (x y : Q) :
  (0 < x)%Q -> (x <= y)%Q -> (round_pos x <= round_pos y)%Q.
Proof.
  intros Hx Hxy. assert (Hy : (0 < y)%Q) by lra.
  pose proof (ilog2_mono x y Hx Hxy) as He.
  destruct (ilog2_spec x Hx) as [_ X2].
  destruct (ilog2_spec y Hy) as [Y1 _].
  unfold round_pos.
  set (px := Z.max (ilog2 x - 52) (-1074)).
  set (py := Z.max (ilog2 y - 52) (-1074)).
  destruct (Z.eq_dec px py) as [E | NE].
  - rewrite E. apply Qmult_le_compat_r; [ | apply Qlt_le_weak, pow2_pos].
    rewrite <- Zle_Qle. apply rne_mono.
    apply Qle_shift_div_r; [apply pow2_pos | ].
    unfold Qdiv. rewrite <- Qmult_assoc, (Qmult_comm (/ _)), Qmult_inv_r, Qmult_1_r;
      [exact Hxy | ].
    intros H0. pose proof (pow2_pos py). lra.
  - assert (Hlt : (ilog2 x + 1 <= ilog2 y)%Z) by lia.
    apply Qle_trans with (2 ^ ilog2 y)%Q.
    + apply grid_le_pow; [lia | ].
      apply Qle_trans with (2 ^ (ilog2 x + 1))%Q; [lra | now apply pow2_le].
    + apply grid_ge_pow; [lia | exact Y1].
Qed.

Lemma round_pos_nonneg (x : Q) : (0 < x)%Q -> (0 <= round_pos x)%Q.
Proof.
  intros Hx. unfold round_pos.
  apply Qmult_le_0_compat; [ | apply Qlt_le_weak, pow2_pos].
  rewrite <- (Zle_Qle 0). rewrite <- (rne_Z 0). apply rne_mono.
  apply Qle_shift_div_l; [apply pow2_pos | ].
  change (inject_Z 0) with 0%Q. rewrite Qmult_0_l. now apply Qlt_le_weak.
Qed.

(** Rounding to a double keeps the order. *)
Lemma round64_monotone (x y : Q) : (x <= y)%Q -> (round64 x <= round64 y)%Q.
Proof.
  intros Hxy. unfold round64.
  destruct (Qcompare x 0) eqn:Cx; destruct (Qcompare y 0) eqn:Cy;
    compared Cx; compared Cy; try (exfalso; lra).
  - lra.
  - now apply round_pos_nonneg.
  - assert (0 <= round_pos (- x))%Q by (apply round_pos_nonneg; lra). lra.
  - assert (round_pos (- y) <= round_pos (- x))%Q by (apply round_pos_mono; lra).
    lra.
  - assert (0 <= round_pos (- x))%Q by (apply round_pos_nonneg; lra).
    assert (0 <= round_pos y)%Q by (apply round_pos_nonneg; lra). lra.
  - now apply round_pos_mono.
Qed.

Lemma round64_comp (x y : Q) : (x == y)%Q -> (round64 x == round64 y)%Q.
Proof.
  intros E. apply Qle_antisym; apply round64_monotone; lra.
Qed.

(** 0, 1 and 100 are doubles. *)
Lemma round64_0 : (round64 0 == 0)%Q.
Proof. vm_compute. reflexivity. Qed.

Lemma round64_1 : (round64 1 == 1)%Q.
Proof. vm_compute. reflexivity. Qed.

Lemma round64_100 : (round64 100 == 100)%Q.
Proof. vm_compute. reflexivity. Qed.

Lemma positive_is_not_zero (m : Q) : (0 < m)%Q -> Qeq_bool m 0 = false.
Proof.
  intros Hpos. destruct (Qeq_bool m 0) eqn:E; [ | reflexivity].
  apply Qeq_bool_iff in E. rewrite E in Hpos. discriminate.
Qed.

(** The width over a positive divisor, and its bounds. *)
Lemma width_over_positive
  (sectorData : list SectorPerformance.Entry) (sector : SectorPerformance.Entry)
  (m p : Q) :
  SectorPerformance.maxPerformance sectorData = Fin m ->
  (0 < m)%Q ->
  SectorPerformance.performance sector = Fin p ->
  SectorPerformance.width sectorData sector
  = Fin (Qmin (round64 (round64 (Qabs p / m) * 100)) 100) /\
  (0 <= Qmin (round64 (round64 (Qabs p / m) * 100)) 100 <= 100)%Q.
Proof.
  intros Hmax Hpos Hp. split.
  - unfold SectorPerformance.width. rewrite Hmax, Hp.
    cbn [Math_abs num_div]. rewrite (positive_is_not_zero m Hpos). reflexivity.
  - split; [ | apply Q.le_min_r].
    apply Q.min_glb; [ | discriminate].
    rewrite <- round64_0. apply round64_monotone.
    apply Qmult_le_0_compat; [ | discriminate].
    rewrite <- round64_0. apply round64_monotone.
    apply Qle_shift_div_l; [exact Hpos | ].
    rewrite Qmult_0_l. apply Qabs_nonneg.
Qed.

Lemma some_nonzero_gives_positive_max
  (sectorData : list SectorPerformance.Entry) (m : Q) :
  (forall x q, In x sectorData -> SectorPerformance.performance x = Fin q ->
               (Qabs q <= m)%Q) ->
  (exists x q, In x sectorData /\ SectorPerformance.performance x = Fin q /\
               ~ (q == 0)%Q) ->
  (0 < m)%Q.
Proof.
  intros Hbound (x & q & Hx & Hq & Hnz).
  apply Qlt_le_trans with (Qabs q); [ | now apply (Hbound x)].
  destruct (Qlt_le_dec 0 (Qabs q)) as [H | H]; [exact H | ].
  exfalso. apply Hnz.
  apply Qabs_Qle_condition in H. destruct H as [H1 H2].
  apply Qle_antisym; [exact H2 | exact H1].
Qed.


(** Rounding at work: for the performances 0.3 and 0.1, as the doubles the
    payload is read into, the width of the second bar is the double that
    prints as 33.333333333333336, not the rational 100/3. *)
Example width_of_a_third :
  let thirds := [SectorPerformance.mkEntry "A" (Fin (round64 (3 # 10)));
                 SectorPerformance.mkEntry "B" (Fin (round64 (1 # 10)))] in
  num_eq (SectorPerformance.width thirds
            (SectorPerformance.mkEntry "B" (Fin (round64 (1 # 10)))))
    (Fin (4691249611844267 # 140737488355328)) /\
  (33333333333333335 # 1000000000000000
   < 4691249611844267 # 140737488355328
   < 33333333333333337 # 1000000000000000)%Q.
Proof.
  cbv zeta. split; [vm_compute; reflexivity | split; reflexivity].
Qed.




(** * Further properties *)

(** ** The response resolver *)

(** [prefix] and [includes] are the prefix and the substring tests. *)
Lemma prefix_iff (sub s : string) :
  String.prefix sub s = true <-> exists post, s = sub ++ post.
Proof.
  revert s. induction sub as [ | c sub IH]; intros s.
  - cbn. split; [intros _; now exists s | destruct s; reflexivity].
  - destruct s as [ | d s]; cbn.
    + split; [discriminate | intros [post H]; discriminate].
    + destruct (Ascii.ascii_dec c d) as [-> | Hne].
      * rewrite IH. split; intros [post H]; exists post.
        -- now rewrite H.
        -- now injection H.
      * split; [discriminate | ].
        intros [post H]. injection H as H1 H2. congruence.
Qed.

Lemma includes_iff (s sub : string) :
  includes s sub = true <-> exists pre post, s = pre ++ sub ++ post.
Proof.
  induction s as [ | c s IH]; cbn [includes]; rewrite orb_true_iff, prefix_iff.
  - split.
    + intros [[post H] | H]; [ | discriminate]. now exists "", post.
    + intros (pre & post & H). left.
      destruct pre; [now exists post | discriminate].
  - rewrite IH. split.
    + intros [[post H] | (pre & post & H)].
      * now exists "", post.
      * exists (String c pre), post. cbn. now rewrite H.
    + intros (pre & post & H). destruct pre as [ | d pre].
      * left. now exists post.
      * right. cbn in H. injection H as _ H. now exists pre, post.
Qed.

(** A response outside 200-299 is always rejected, with one of the two
    messages. *)
Lemma handleResponse_not_ok (r : Response) :
  ok r = false ->
  fst (handleResponse r)
  = Throw (new_Error
             (if declares (content_type r) "text/html"
              then "Server error: " ++ nat_to_string (status r) ++ " "
                   ++ statusText r
              else "HTTP " ++ nat_to_string (status r) ++ ": " ++ statusText r)).
Proof.
  intros Hok. unfold handleResponse.
  cbv [bind get_state when ret try_catch throw JS_or await].
  rewrite Hok. cbn [negb].
  destruct (declares (content_type r) "text/html"); [reflexivity | ].
  destruct (Response_json r) as [[errorData | e] r']; [ | reflexivity].
  destruct (get_prop errorData "message") as [m | e]; [ | reflexivity].
  destruct (truthy m); [reflexivity | ].
  destruct (get_prop errorData "detail") as [d | e]; [ | reflexivity].
  destruct (truthy d); reflexivity.
Qed.

(** X1.  [handleResponse] resolves with [v] exactly when the status is in
    200-299 and the response has a body, not yet read, that parses as [v];
    the declared content type plays no part. *)
Theorem handleResponse_resolves_iff (r : Response) (v : value) :
  fst (handleResponse r) = Return v
  <-> ok r = true /\ (exists t, body r = Some t) /\ bodyUsed r = false
      /\ parsed r = Some v.
Proof.
  split.
  - destruct (ok r) eqn:Hok.
    2:{ rewrite (handleResponse_not_ok r Hok). discriminate. }
    unfold handleResponse.
    cbv [bind get_state when ret try_catch throw Response_json Response_text
         called consume].
    rewrite Hok. cbn.
    destruct (body r) as [t | ]; [ | discriminate].
    destruct (bodyUsed r); [discriminate | ].
    destruct (parsed r) as [v' | ]; cbn.
    + intros H. injection H as <-. repeat split. now exists t.
    + discriminate.
  - intros (Hok & [t Hbody] & Hused & Hparsed).
    exact (handleResponse_success r t v Hok Hbody Hused Hparsed).
Qed.

Lemma handleResponse_resolves_iff_witness :
  fst (handleResponse (mkResponse 200 "OK" (Some "text/plain")
                         (Some (stringify sample_results)) (Some sample_results)
                         false []))
  = Return sample_results.
Proof.
  apply (proj2 (handleResponse_resolves_iff _ sample_results)).
  repeat split. now eexists.
Defined.

(** X2.  For a response outside 200-299 the only thing that decides the
    rejection is whether the content type holds [text/html] somewhere, with
    whatever parameters around it: then the message is
    [Server error: <status> <statusText>], otherwise
    [HTTP <status>: <statusText>]. *)
Theorem handleResponse_error_page_by_substring (r : Response) :
  ok r = false ->
  (forall pre post,
     content_type r = Some (pre ++ "text/html" ++ post) ->
     fst (handleResponse r)
     = Throw (new_Error ("Server error: " ++ nat_to_string (status r) ++ " "
                         ++ statusText r)))
  /\
  ((forall pre post, content_type r <> Some (pre ++ "text/html" ++ post)) ->
   fst (handleResponse r)
   = Throw (new_Error ("HTTP " ++ nat_to_string (status r) ++ ": "
                       ++ statusText r))).
Proof.
  intros Hok. rewrite (handleResponse_not_ok r Hok). split.
  - intros pre post Hct. unfold declares. rewrite Hct.
    assert (Hin : includes (pre ++ "text/html" ++ post) "text/html" = true)
      by (apply includes_iff; now exists pre, post).
    rewrite Hin.
    destruct pre; reflexivity.
  - intros Hno. unfold declares.
    destruct (content_type r) as [ct | ]; [ | reflexivity].
    destruct (includes ct "text/html") eqn:Hin.
    + apply includes_iff in Hin. destruct Hin as (pre & post & ->).
      exfalso. now apply (Hno pre post).
    + now rewrite andb_false_r.
Qed.

Lemma handleResponse_error_page_by_substring_witness :
  fst (handleResponse html_502) = Throw (new_Error "Server error: 502 Bad Gateway").
Proof.
  exact (proj1 (handleResponse_error_page_by_substring html_502 eq_refl)
           "" "; charset=utf-8" eq_refl).
Defined.

Lemma handleResponse_invalid_JSON_witness :
  fst (handleResponse plain_200) = Throw body_already_read.
Proof.
  exact (handleResponse_invalid_JSON plain_200 "Internal error"
           eq_refl eq_refl eq_refl eq_refl).
Defined.

Lemma handleResponse_no_body_witness :
  fst (handleResponse no_content)
  = Throw (new_Error "Invalid JSON response: ...").
Proof.
  exact (handleResponse_no_body no_content eq_refl eq_refl).
Defined.

(** ** The API client *)

Ltac run_request :=
  cbv [run bind try_catch await throw ret on fetch fst].

(** X5.  The request wrappers add nothing of their own: on a network that
    settles every request as [c], each operation of [api] and of
    [sectorApi] rejects with the very error of a rejected [c], and otherwise
    settles as [handleResponse] does on the response. *)
Theorem api_operations_settle_as_handleResponse
  (c : completion Response) (f : File) (username password period : string)
  (uploadId : value) :
  let settled := match c with
                 | Throw e => Throw e
                 | Return r => fst (handleResponse r)
                 end in
  api.register (always c) username password = settled /\
  api.login (always c) username password = settled /\
  api.logout (always c) = settled /\
  api.getUser (always c) = settled /\
  api.uploadCSV (always c) f = settled /\
  api.processCSV (always c) = settled /\
  api.getResults (always c) = settled /\
  api.getSignals (always c) = settled /\
  api.getChartHtml (always c) uploadId = settled /\
  api.checkChartStatus (always c) uploadId = settled /\
  api.getHistory (always c) = settled /\
  api.getHistoryDetail (always c) uploadId = settled /\
  sectorApi.fetchSectorData (always c) period = settled /\
  sectorApi.fetchSectorSummary (always c) period = settled.
Proof.
  cbv zeta.
  unfold api.register, api.login, api.logout, api.getUser, api.uploadCSV,
    api.processCSV, api.getResults, api.getSignals, api.getChartHtml,
    api.checkChartStatus, api.getHistory, api.getHistoryDetail,
    sectorApi.fetchSectorData, sectorApi.fetchSectorSummary, always.
  run_request.
  destruct c as [r | e]; [ | repeat split].
  destruct (handleResponse r) as [[v | e] r']; repeat split.
Qed.

(** X6.  For an upload id that reads truthy, the address [handleViewChart]
    opens is the one [api.getChart] builds when it is given the id itself,
    for every format, the default included. *)
Theorem handleViewChart_is_getChart_with_id (uploadId format : value) :
  truthy uploadId = true ->
  History.handleViewChart uploadId format = api.getChart format uploadId.
Proof.
  intros Hid. unfold History.handleViewChart, api.getChart.
  assert (Hdef : default_arg uploadId VNull = uploadId)
    by (destruct uploadId; reflexivity || discriminate).
  rewrite Hdef, Hid. cbn [default_arg truthy].
  destruct format; reflexivity.
Qed.

Lemma handleViewChart_is_getChart_with_id_witness :
  History.handleViewChart (VStr "u42") VUndefined
  = "http://localhost:8000/generate-chart?format=html&upload_id=u42".
Proof.
  rewrite (handleViewChart_is_getChart_with_id (VStr "u42") VUndefined eq_refl).
  reflexivity.
Defined.

(** ** The session store *)

(** X7.  The probe at mount never throws and always ends with [loading]
    off, whatever the network does: the session is never left Probing. *)
Theorem checkLoggedIn_ends_probing (net : Network) (a : AuthContext.AuthState) :
  fst (AuthContext.checkLoggedIn net a) = Return tt /\
  AuthContext.loading (snd (AuthContext.checkLoggedIn net a)) = false /\
  AuthContext.session (snd (AuthContext.checkLoggedIn net a))
  <> AuthContext.Probing.
Proof.
  assert (H : fst (AuthContext.checkLoggedIn net a) = Return tt /\
              AuthContext.loading (snd (AuthContext.checkLoggedIn net a)) = false).
  { unfold AuthContext.checkLoggedIn. run_handler.
    destruct (api.getUser net) as [data | e]; [ | split; reflexivity].
    destruct (get_prop data "logged_in") as [v | e]; [ | split; reflexivity].
    destruct (truthy v); [ | split; reflexivity].
    destruct (get_prop data "username") as [name | e]; split; reflexivity. }
  destruct H as [H1 H2]. repeat split; try assumption.
  unfold AuthContext.session. rewrite H2.
  destruct (truthy _); discriminate.
Qed.

(** X8.  After the probe at mount the session is Authenticated as [u]
    exactly when the call resolved with a truthy [logged_in] and [u] is the
    payload's [username] and reads truthy; a payload that says logged in but
    names no user leaves the session Anonymous. *)
Theorem checkLoggedIn_authenticated_iff (net : Network) (u : value) :
  AuthContext.session (snd (AuthContext.checkLoggedIn net AuthContext.initial))
  = AuthContext.Authenticated u
  <-> exists data v,
        api.getUser net = Return data /\
        get_prop data "logged_in" = Return v /\ truthy v = true /\
        get_prop data "username" = Return u /\ truthy u = true.
Proof.
  unfold AuthContext.checkLoggedIn. run_handler. split.
  - destruct (api.getUser net) as [data | e]; [ | discriminate].
    destruct (get_prop data "logged_in") as [v | e] eqn:Hv; [ | discriminate].
    destruct (truthy v) eqn:Htv; [ | discriminate].
    destruct (get_prop data "username") as [name | e] eqn:Hn; [ | discriminate].
    unfold AuthContext.session. cbn.
    destruct (truthy name) eqn:Htn; [ | discriminate].
    intros H. injection H as <-.
    exists data, v. repeat split; assumption.
  - intros (data & v & Hd & Hv & Htv & Hn & Htn).
    rewrite Hd, Hv, Htv, Hn. unfold AuthContext.session. cbn.
    now rewrite Htn.
Qed.

Lemma checkLoggedIn_authenticated_iff_witness :
  AuthContext.session (snd (AuthContext.checkLoggedIn probe_alice AuthContext.initial))
  = AuthContext.Authenticated (VStr "alice").
Proof.
  apply (proj2 (checkLoggedIn_authenticated_iff probe_alice (VStr "alice"))).
  exists (VObj [("logged_in", VBool true); ("username", VStr "alice")]), (VBool true).
  repeat split.
Defined.

(** X9.  When the login request is answered with a status outside 200-299,
    [login] returns [{success: false}] with the fixed message and leaves
    the session as it was: what the server said about the refusal does not
    reach the caller. *)
Theorem login_refusal_reason_is_dropped
  (net : Network) (username password : string) (a : AuthContext.AuthState)
  (r : Response) :
  net (mkRequest (API_URL ++ "/login") POST
         [("username", FormString username); ("password", FormString password)])
  = Return r ->
  ok r = false ->
  AuthContext.login net username password a
  = (Return (VObj [("success", VBool false);
                   ("message", VStr "Login failed. Please try again.")]), a).
Proof.
  intros Hnet Hok.
  assert (Hlogin : exists e, api.login net username password = Throw e).
  { unfold api.login. run_request. rewrite Hnet.
    pose proof (handleResponse_not_ok r Hok) as H.
    destruct (handleResponse r) as [c r']. cbn in H. subst c.
    now eexists. }
  destruct Hlogin as [e He].
  unfold AuthContext.login. run_handler. rewrite He. reflexivity.
Qed.

Lemma login_refusal_reason_is_dropped_witness :
  AuthContext.login login_refused "alice" "secret" logged_out
  = (Return (VObj [("success", VBool false);
                   ("message", VStr "Login failed. Please try again.")]),
     logged_out).
Proof.
  exact (login_refusal_reason_is_dropped login_refused "alice" "secret" logged_out
           (json_response 401 "Unauthorized" (VObj [("detail", VStr "Wrong password")]))
           eq_refl eq_refl).
Defined.

(** X10.  [login] never throws, and it changes the session only when the
    call resolved with a truthy [success]: it then returns
    [{success: true}] and the user is the payload's [username]. *)
Theorem login_changes_session_only_on_success
  (net : Network) (username password : string) (a : AuthContext.AuthState) :
  (exists result, fst (AuthContext.login net username password a) = Return result)
  /\
  (snd (AuthContext.login net username password a) <> a ->
   fst (AuthContext.login net username password a)
   = Return (VObj [("success", VBool true)]) /\
   Dashboard.reports_success (api.login net username password) /\
   exists data,
     api.login net username password = Return data /\
     get_prop data "username"
     = Return (AuthContext.user (snd (AuthContext.login net username password a)))).
Proof.
  unfold AuthContext.login. run_handler.
  destruct (api.login net username password) as [data | e].
  2:{ split; [now eexists | intros H; now contradiction H]. }
  destruct (get_prop data "success") as [v | e] eqn:Hv.
  2:{ split; [now eexists | intros H; now contradiction H]. }
  destruct (truthy v) eqn:Htv.
  - destruct (get_prop data "username") as [name | e] eqn:Hn.
    2:{ split; [now eexists | intros H; now contradiction H]. }
    split; [now eexists | intros _].
    split; [reflexivity | ]. split.
    + exists data, v. repeat split; assumption.
    + exists data. split; [reflexivity | exact Hn].
  - destruct (get_prop data "message") as [m | e].
    + split; [now eexists | intros H; now contradiction H].
    + split; [now eexists | intros H; now contradiction H].
Qed.

Lemma login_changes_session_only_on_success_witness :
  fst (AuthContext.login login_accepted "alice" "secret" logged_out)
  = Return (VObj [("success", VBool true)]).
Proof.
  apply (proj2 (login_changes_session_only_on_success
                  login_accepted "alice" "secret" logged_out)).
  discriminate.
Defined.

(** X11.  No operation of the session store switches [loading] back on:
    [login] and [logout] leave it as it is, [register] leaves the whole
    session as it is, and the probe switches it off. *)
Theorem session_operations_never_set_loading
  (net : Network) (username password : string) (a : AuthContext.AuthState) :
  AuthContext.loading (snd (AuthContext.login net username password a))
  = AuthContext.loading a /\
  AuthContext.loading (snd (AuthContext.logout net a)) = AuthContext.loading a /\
  snd (AuthContext.register net username password a) = a /\
  AuthContext.loading (snd (AuthContext.checkLoggedIn net a)) = false.
Proof.
  repeat split.
  - unfold AuthContext.login. run_handler.
    destruct (api.login net username password) as [data | e]; [ | reflexivity].
    destruct (get_prop data "success") as [v | e]; [ | reflexivity].
    destruct (truthy v).
    + destruct (get_prop data "username"); reflexivity.
    + destruct (get_prop data "message"); reflexivity.
  - unfold AuthContext.logout. run_handler.
    destruct (api.logout net); reflexivity.
  - unfold AuthContext.register. run_handler.
    destruct (api.register net username password); reflexivity.
  - unfold AuthContext.checkLoggedIn. run_handler.
    destruct (api.getUser net) as [data | e]; [ | reflexivity].
    destruct (get_prop data "logged_in") as [v | e]; [ | reflexivity].
    destruct (truthy v); [ | reflexivity].
    destruct (get_prop data "username"); reflexivity.
Qed.

(** X12.  [handleLogout] of the navigation bar always ends on [/login]; when
    the logout call rejects, the session it leaves behind is the one it
    found, so a user who was logged in still is. *)
Theorem handleLogout_always_navigates (net : Network) (app : Navbar.App) :
  fst (Navbar.handleLogout net app) = Return tt /\
  Navbar.location (snd (Navbar.handleLogout net app)) = "/login" /\
  ((exists e, api.logout net = Throw e) ->
   Navbar.auth (snd (Navbar.handleLogout net app)) = Navbar.auth app).
Proof.
  unfold Navbar.handleLogout, Navbar.useAuth, AuthContext.logout. run_handler.
  destruct (api.logout net) as [v | e]; cbn.
  - repeat split. intros [e He]. discriminate.
  - repeat split.
Qed.

Lemma handleLogout_always_navigates_witness :
  let after := snd (Navbar.handleLogout offline (Navbar.mkApp logged_in "/dashboard")) in
  Navbar.location after = "/login" /\ Navbar.shows_welcome after = true.
Proof.
  cbv zeta.
  destruct (handleLogout_always_navigates offline
              (Navbar.mkApp logged_in "/dashboard")) as (_ & Hloc & Hauth).
  split; [exact Hloc | ].
  unfold Navbar.shows_welcome.
  rewrite (Hauth (ex_intro _ failed_to_fetch eq_refl)). reflexivity.
Defined.

(** ** The dashboard workflow *)



(** X14.  When, after a successful upload, the process call resolves
    without a truthy [success], neither fetch is used: results, signals and
    chart reference are those from before the run, and both busy flags are
    off.  The message shown is the payload's [error] if that reads truthy
    and [Processing failed] if it does not; for the payload [null], on which
    reading [success] throws, it is the message of failed processing. *)
Theorem handleUpload_refused_processing
  (net : Network) (s : Dashboard.State) (f : File) (result : value) :
  Dashboard.file s = Some f ->
  Dashboard.reports_success (api.uploadCSV net f) ->
  api.processCSV net = Return result ->
  ~ Dashboard.reports_success (api.processCSV net) ->
  snd (Dashboard.handleUpload net s)
  = Dashboard.mkState (Some f) (Dashboard.fileName s) false false
      (match get_prop result "error" with
       | Return m => if truthy m then m else VStr "Processing failed"
       | Throw _ => VStr "An error occurred during processing"
       end)
      (Dashboard.results s) (Dashboard.signals s) (Dashboard.chartUrl s).
Proof.
  intros Hfile Hup Hp Hno. rewrite Hp in Hno.
  rewrite (handleUpload_then_process net s f Hfile Hup).
  unfold Dashboard.handleProcess. run_handler.
  rewrite Hp.
  destruct s as [file0 name0 u p e r g c].
  cbv [Dashboard.file] in Hfile. subst file0.
  destruct result as [ | | b | q | str | items | props];
    cbn [get_prop truthy]; try reflexivity.
  destruct (truthy (lookup "success" props)) eqn:Ht.
  - exfalso. apply Hno.
    exists (VObj props), (lookup "success" props). repeat split. exact Ht.
  - destruct (truthy (lookup "error" props)); reflexivity.
Qed.

Lemma handleUpload_refused_processing_witness :
  Dashboard.error (snd (Dashboard.handleUpload processing_refused selected))
  = VStr "Processing failed" /\
  Dashboard.error (snd (Dashboard.handleUpload processing_null selected))
  = VStr "An error occurred during processing".
Proof.
  assert (Hok : Dashboard.reports_success (Return success_true)).
  { exists success_true, (VBool true). repeat split. }
  split.
  - rewrite (handleUpload_refused_processing processing_refused selected trades
               (VObj [("success", VBool false)]) eq_refl Hok eq_refl).
    + reflexivity.
    + intros (r & v & Hr & Hv & Ht). injection Hr as <-.
      injection Hv as <-. discriminate.
  - rewrite (handleUpload_refused_processing processing_null selected trades
               VNull eq_refl Hok eq_refl).
    + reflexivity.
    + intros (r & v & Hr & Hv & Ht). injection Hr as <-. discriminate.
Defined.

(** A run in which every call succeeds. *)
Lemma handleUpload_all_succeed
  (net : Network) (s : Dashboard.State) (f : File)
  (resultsData signalsData : value) :
  Dashboard.file s = Some f ->
  Dashboard.reports_success (api.uploadCSV net f) ->
  Dashboard.reports_success (api.processCSV net) ->
  api.getResults net = Return resultsData ->
  api.getSignals net = Return signalsData ->
  snd (Dashboard.handleUpload net s)
  = Dashboard.mkState (Some f) (Dashboard.fileName s) false false (VStr "")
      resultsData signalsData (API_URL ++ "/chart-iframe").
Proof.
  intros Hfile Hup (result & success & Hp & Hs & Ht) Hr Hg.
  rewrite (handleUpload_then_process net s f Hfile Hup).
  unfold Dashboard.handleProcess. run_handler.
  rewrite Hp, Hs, Ht, Hr, Hg.
  destruct s as [file0 name0 u p e r g c].
  cbv [Dashboard.file] in Hfile. subst file0.
  reflexivity.
Qed.

(** X15.  When the upload, the process call and both fetches succeed, the
    run ends with the error cleared, both busy flags off, the two payloads
    stored as they came and the chart reference set to the iframe address
    without an upload id.  The stage is Ready if the results payload reads
    truthy, and Idle if it does not (a [null] payload, say). *)
Theorem handleUpload_success_stores_run
  (net : Network) (s : Dashboard.State) (f : File)
  (resultsData signalsData : value) :
  Dashboard.file s = Some f ->
  Dashboard.reports_success (api.uploadCSV net f) ->
  Dashboard.reports_success (api.processCSV net) ->
  api.getResults net = Return resultsData ->
  api.getSignals net = Return signalsData ->
  let after := snd (Dashboard.handleUpload net s) in
  after = Dashboard.mkState (Some f) (Dashboard.fileName s) false false (VStr "")
            resultsData signalsData "http://localhost:8000/chart-iframe" /\
  Dashboard.stage after
  = (if truthy resultsData then Dashboard.Ready else Dashboard.Idle).
Proof.
  intros Hfile Hup Hp Hr Hg. cbv zeta.
  rewrite (handleUpload_all_succeed net s f resultsData signalsData
             Hfile Hup Hp Hr Hg).
  split; reflexivity.
Qed.

Lemma handleUpload_success_stores_run_witness :
  Dashboard.stage (snd (Dashboard.handleUpload all_good selected))
  = Dashboard.Ready.
Proof.
  assert (Hok : Dashboard.reports_success (Return success_true)).
  { exists success_true, (VBool true). repeat split. }
  exact (proj2 (handleUpload_success_stores_run all_good selected trades
                  sample_results sample_signals eq_refl Hok Hok eq_refl eq_refl)).
Defined.

(** X16.  A run that fails in processing after an earlier run that went
    through leaves the results of the earlier run in place beside the new
    error: the stage is Failed while [results] still holds the old
    payload. *)
Theorem failed_run_keeps_earlier_results
  (net1 net2 : Network) (s : Dashboard.State) (f : File)
  (resultsData signalsData : value) :
  Dashboard.file s = Some f ->
  Dashboard.reports_success (api.uploadCSV net1 f) ->
  Dashboard.reports_success (api.processCSV net1) ->
  api.getResults net1 = Return resultsData ->
  api.getSignals net1 = Return signalsData ->
  Dashboard.reports_success (api.uploadCSV net2 f) ->
  (exists e, api.processCSV net2 = Throw e) \/
  (Dashboard.reports_success (api.processCSV net2) /\
   ((exists e, api.getResults net2 = Throw e) \/
    (exists e, api.getSignals net2 = Throw e))) ->
  let first := snd (Dashboard.handleUpload net1 s) in
  let second := snd (Dashboard.handleUpload net2 first) in
  Dashboard.stage second = Dashboard.Failed /\
  Dashboard.results second = resultsData /\
  Dashboard.signals second = signalsData /\
  Dashboard.chartUrl second = Dashboard.chartUrl first.
Proof.
  intros Hfile Hup1 Hp1 Hr1 Hg1 Hup2 Hrej. cbv zeta.
  rewrite (handleUpload_all_succeed net1 s f resultsData signalsData
             Hfile Hup1 Hp1 Hr1 Hg1).
  rewrite (handleUpload_then_process net2
             (Dashboard.mkState (Some f) (Dashboard.fileName s) false false
                (VStr "") resultsData signalsData (API_URL ++ "/chart-iframe"))
             f eq_refl Hup2).
  rewrite (handleProcess_rejection net2 _ Hrej).
  repeat split.
Qed.

Lemma failed_run_keeps_earlier_results_witness :
  let second := snd (Dashboard.handleUpload process_fails
                       (snd (Dashboard.handleUpload all_good selected))) in
  Dashboard.stage second = Dashboard.Failed /\
  Dashboard.results second = sample_results.
Proof.
  cbv zeta.
  assert (Hok : Dashboard.reports_success (Return success_true)).
  { exists success_true, (VBool true). repeat split. }
  destruct (failed_run_keeps_earlier_results all_good process_fails selected
              trades sample_results sample_signals eq_refl Hok Hok eq_refl
              eq_refl Hok
              (or_introl (ex_intro _ (new_Error "HTTP 500: Internal Server Error")
                            eq_refl)))
    as (Hstage & Hres & _).
  split; assumption.
Defined.

(** X17.  [handleUpload] never throws, and it releases what it takes: from a
    form that is not busy, the run ends with [uploading] and [processing]
    both off, whatever the network does. *)
Theorem handleUpload_releases_busy_flags (net : Network) (s : Dashboard.State) :
  Dashboard.uploading s = false ->
  Dashboard.processing s = false ->
  fst (Dashboard.handleUpload net s) = Return tt /\
  Dashboard.uploading (snd (Dashboard.handleUpload net s)) = false /\
  Dashboard.processing (snd (Dashboard.handleUpload net s)) = false.
Proof.
  intros Hu Hp.
  unfold Dashboard.handleUpload, Dashboard.handleProcess. run_handler.
  destruct (Dashboard.file s) as [f | ]; run_handler.
  2:{ repeat split; assumption. }
  destruct (api.uploadCSV net f) as [result | e]; [ | now repeat split].
  destruct (get_prop result "success") as [success | e]; [ | now repeat split].
  destruct (truthy success).
  - destruct (api.processCSV net) as [presult | e]; [ | now repeat split].
    destruct (get_prop presult "success") as [psuccess | e]; [ | now repeat split].
    destruct (truthy psuccess).
    + destruct (api.getResults net); [ | now repeat split].
      destruct (api.getSignals net); now repeat split.
    + destruct (get_prop presult "error") as [m | e]; [ | now repeat split].
      destruct (truthy m); now repeat split.
  - destruct (get_prop result "message") as [m | e]; [ | now repeat split].
    destruct (truthy m); now repeat split.
Qed.

Lemma handleUpload_releases_busy_flags_witness :
  Dashboard.uploading (snd (Dashboard.handleUpload offline selected)) = false /\
  Dashboard.processing (snd (Dashboard.handleUpload offline selected)) = false.
Proof.
  exact (proj2 (handleUpload_releases_busy_flags offline selected eq_refl eq_refl)).
Defined.

Ltac use_equations :=
  repeat match goal with
         | H : ?x = _ |- _ => rewrite H
         end.

Ltac run_dashboard :=
  cbv [bind try_catch try_finally await modify ret get_state JS_or when
       Dashboard.setUploading Dashboard.setError Dashboard.setProcessing
       Dashboard.setResults Dashboard.setSignals Dashboard.setChartUrl
       Dashboard.file Dashboard.fileName Dashboard.uploading
       Dashboard.processing Dashboard.error Dashboard.results
       Dashboard.signals Dashboard.chartUrl snd fst].

Ltac settle := run_dashboard; use_equations; run_dashboard.

(** X18.  Submitting again on a network that answers as before changes
    nothing: the state after the second run is the state after the first. *)
Theorem handleUpload_again_is_stable (net : Network) (s : Dashboard.State) :
  snd (Dashboard.handleUpload net (snd (Dashboard.handleUpload net s)))
  = snd (Dashboard.handleUpload net s).
Proof.
  destruct s as [file0 name0 u p e r g c].
  unfold Dashboard.handleUpload, Dashboard.handleProcess. run_dashboard.
  destruct file0 as [f | ]; [ | reflexivity].
  destruct (api.uploadCSV net f) as [result | e0] eqn:Hup; settle;
    [ | reflexivity].
  destruct (get_prop result "success") as [success | e0] eqn:Hs; settle;
    [ | reflexivity].
  destruct (truthy success) eqn:Ht; settle.
  - destruct (api.processCSV net) as [presult | e0] eqn:Hp; settle;
      [ | reflexivity].
    destruct (get_prop presult "success") as [psuccess | e0] eqn:Hps; settle;
      [ | reflexivity].
    destruct (truthy psuccess) eqn:Hpt; settle.
    + destruct (api.getResults net) as [rd | e0] eqn:Hr; settle;
        [ | reflexivity].
      destruct (api.getSignals net) as [sd | e0] eqn:Hg; settle; reflexivity.
    + destruct (get_prop presult "error") as [m | e0] eqn:Hm; settle;
        [ | reflexivity].
      destruct (truthy m) eqn:Htm; settle; reflexivity.
  - destruct (get_prop result "message") as [m | e0] eqn:Hm; settle;
      [ | reflexivity].
    destruct (truthy m) eqn:Htm; settle; reflexivity.
Qed.

(** ** The history page *)

(** X19.  [loadHistory] never throws and always ends with [loading] off.
    The list is replaced only when the call reports success, by the
    payload's [history]; a rejected call leaves the list as it was and sets
    the error of a failed load.  The error is never cleared: after a load
    that reports success it is what it was before. *)
Theorem loadHistory_outcome (net : Network) (s : History.State) :
  let after := snd (History.loadHistory net s) in
  fst (History.loadHistory net s) = Return tt /\
  History.loading after = false /\
  History.selectedEntry after = History.selectedEntry s /\
  (History.history after <> History.history s ->
   Dashboard.reports_success (api.getHistory net)) /\
  (Dashboard.reports_success (api.getHistory net) ->
   History.error after = History.error s /\
   exists result, api.getHistory net = Return result /\
                  get_prop result "history" = Return (History.history after)) /\
  ((exists e, api.getHistory net = Throw e) ->
   History.history after = History.history s /\
   History.error after = "An error occurred while loading history").
Proof.
  cbv zeta. unfold History.loadHistory. run_handler.
  destruct (api.getHistory net) as [result | e].
  2:{ do 3 (split; [reflexivity | ]). split; [ | split].
      - intros H. now contradiction H.
      - intros (r & v & Hr & _). discriminate.
      - intros _. split; reflexivity. }
  destruct (get_prop result "success") as [success | e] eqn:Hs.
  2:{ do 3 (split; [reflexivity | ]). split; [ | split].
      - intros H. now contradiction H.
      - intros (r & v & Hr & Hv & _). injection Hr as <-. congruence.
      - intros [e' He']. discriminate. }
  destruct (truthy success) eqn:Ht.
  - destruct (get_prop result "history") as [entries | e] eqn:He.
    2:{ destruct result; cbn in Hs, He; discriminate. }
    do 3 (split; [reflexivity | ]). split; [ | split].
    + intros _. exists result, success. repeat split; assumption.
    + intros _. split; [reflexivity | ].
      exists result. split; [reflexivity | exact He].
    + intros [e' He']. discriminate.
  - do 3 (split; [reflexivity | ]). split; [ | split].
    + intros H. now contradiction H.
    + intros (r & v & Hr & Hv & Hv'). injection Hr as <-.
      rewrite Hs in Hv. injection Hv as <-. congruence.
    + intros [e' He']. discriminate.
Qed.

Lemma loadHistory_outcome_witness :
  let after := snd (History.loadHistory offline History.initial) in
  History.loading after = false /\
  History.history after = VArr [] /\
  History.error after = "An error occurred while loading history".
Proof.
  cbv zeta.
  destruct (loadHistory_outcome offline History.initial)
    as (_ & Hload & _ & _ & _ & Hrej).
  destruct (Hrej (ex_intro _ failed_to_fetch eq_refl)) as [Hh He].
  repeat split; assumption.
Defined.

(** X20.  [handleViewDetails] fails silently: unless the detail call reports
    success the page is exactly as it was, with no error set; and in every
    case only the selected entry can change. *)
Theorem handleViewDetails_fails_silently
  (net : Network) (uploadId : value) (s : History.State) :
  let after := snd (History.handleViewDetails net uploadId s) in
  fst (History.handleViewDetails net uploadId s) = Return tt /\
  History.history after = History.history s /\
  History.loading after = History.loading s /\
  History.error after = History.error s /\
  (~ Dashboard.reports_success (api.getHistoryDetail net uploadId) -> after = s).
Proof.
  cbv zeta. unfold History.handleViewDetails. run_handler.
  destruct (api.getHistoryDetail net uploadId) as [result | e];
    [ | now repeat split].
  destruct (get_prop result "success") as [success | e] eqn:Hs;
    [ | now repeat split].
  destruct (truthy success) eqn:Ht; [ | now repeat split].
  destruct (get_prop result "entry") as [entry | e]; [ | now repeat split].
  repeat split. intros Hno. exfalso. apply Hno.
  exists result, success. repeat split; assumption.
Qed.

Lemma handleViewDetails_fails_silently_witness :
  snd (History.handleViewDetails offline (VStr "u42") History.initial)
  = History.initial.
Proof.
  apply (handleViewDetails_fails_silently offline (VStr "u42") History.initial).
  intros (r & v & Hr & _). discriminate.
Defined.

(** ** The signals table *)

Lemma rows_Forall2 (toLocaleString : value -> string) (signals : list value)
  (body : list (list string)) :
  SignalsTable.rows toLocaleString signals = Return body ->
  Forall2 (fun signal cells => SignalsTable.row toLocaleString signal = Return cells)
    signals body.
Proof.
  revert body. induction signals as [ | signal rest IH]; intros body; cbn.
  - intros H. injection H as <-. constructor.
  - destruct (SignalsTable.row toLocaleString signal) as [cells | e] eqn:Hrow;
      [ | discriminate].
    destruct (SignalsTable.rows toLocaleString rest) as [more | e];
      [ | discriminate].
    intros H. injection H as <-. constructor; [exact Hrow | now apply IH].
Qed.

Lemma length_is_not_zero {A} (x : A) (rest : list A) :
  Qeq_bool (inject_Z (Z.of_nat (length (x :: rest)))) 0 = false.
Proof.
  cbn [length]. rewrite Nat2Z.inj_succ. unfold Qeq_bool, inject_Z.
  cbn [Qnum Qden]. apply Z.eqb_neq. lia.
Qed.

Lemma row_of_object (toLocaleString : value -> string)
  (props : list (string * value)) :
  exists cells, SignalsTable.row toLocaleString (VObj props) = Return cells /\
                length cells = 7.
Proof. eexists. split; reflexivity. Qed.

(** X21.  For a non-empty array of signal objects the table has one row per
    signal, in the order of the array, and every row has seven cells. *)
Theorem SignalsTable_one_row_per_signal
  (toLocaleString : value -> string) (signals : list value) :
  signals <> [] ->
  Forall (fun signal => exists props, signal = VObj props) signals ->
  exists body,
    SignalsTable.SignalsTable toLocaleString (VArr signals) = Return (SignalsTable.Table body) /\
    Forall2 (fun signal cells =>
               SignalsTable.row toLocaleString signal = Return cells /\
               length cells = 7)
      signals body.
Proof.
  intros Hne Hobj.
  assert (Hrows : exists body,
             SignalsTable.rows toLocaleString signals = Return body /\
             Forall2 (fun signal cells =>
                        SignalsTable.row toLocaleString signal = Return cells /\
                        length cells = 7) signals body).
  { clear Hne. induction Hobj as [ | signal rest [props ->] _ IH].
    - exists []. split; [reflexivity | constructor].
    - destruct IH as (more & Hmore & Hall).
      destruct (row_of_object toLocaleString props) as (cells & Hrow & Hlen).
      exists (cells :: more). split.
      + cbn [SignalsTable.rows]. rewrite Hrow, Hmore. reflexivity.
      + constructor; [now split | exact Hall]. }
  destruct Hrows as (body & Hrows & Hall).
  exists body. split; [ | exact Hall].
  unfold SignalsTable.SignalsTable.
  destruct signals as [ | signal rest]; [congruence | ].
  cbn [truthy negb orb SignalsTable.length_of strict_equals].
  pose proof (length_is_not_zero signal rest) as Hlen.
  rewrite Hlen, Hrows. reflexivity.
Qed.

Lemma SignalsTable_one_row_per_signal_witness :
  exists body,
    SignalsTable.SignalsTable (fun _ => "1/2/2024, 9:30:00 AM")
      (VArr [VObj [("Type", VStr "LONG"); ("Accuracy", VBool true)];
             VObj [("Type", VStr "SHORT")]])
    = Return (SignalsTable.Table body) /\
    length body = 2.
Proof.
  destruct (SignalsTable_one_row_per_signal (fun _ => "1/2/2024, 9:30:00 AM")
              [VObj [("Type", VStr "LONG"); ("Accuracy", VBool true)];
               VObj [("Type", VStr "SHORT")]]
              ltac:(discriminate)
              ltac:(repeat constructor; eexists; reflexivity))
    as (body & Hview & Hall).
  exists body. split; [exact Hview | ].
  apply Forall2_length in Hall. now rewrite <- Hall.
Defined.

Lemma successor_is_not_zero (n : nat) :
  Qeq_bool (inject_Z (Z.of_nat (S n))) 0 = false.
Proof.
  rewrite Nat2Z.inj_succ. unfold Qeq_bool, inject_Z.
  cbn [Qnum Qden]. apply Z.eqb_neq. lia.
Qed.

(** X22.  The component shows [No signals found] exactly when [signals]
    reads falsy, or is the empty array, or is an object whose [length]
    property is the number 0. *)
Theorem SignalsTable_empty_iff
  (toLocaleString : value -> string) (signals : value) :
  SignalsTable.SignalsTable toLocaleString signals = Return SignalsTable.NoSignals
  <-> truthy signals = false \/ signals = VArr [] \/
      (exists props q, signals = VObj props /\
                       lookup "length" props = VNum q /\ (q == 0)%Q).
Proof.
  unfold SignalsTable.SignalsTable. split.
  - destruct (truthy signals) eqn:Ht; [ | now left].
    cbn [negb orb].
    destruct signals as [ | | b | q | str | items | props];
      cbn [SignalsTable.length_of strict_equals]; try discriminate.
    + destruct str as [ | c str]; [discriminate | ].
      cbn [String.length]. rewrite successor_is_not_zero. discriminate.
    + destruct items as [ | signal rest]; [right; now left | ].
      rewrite (length_is_not_zero signal rest).
      destruct (SignalsTable.rows toLocaleString (signal :: rest)); discriminate.
    + destruct (lookup "length" props) as [ | | b | q | str | items | props'] eqn:Hl;
        cbn [strict_equals]; try discriminate.
      destruct (Qeq_bool q 0) eqn:Hq; [ | discriminate].
      intros _. right. right. exists props, q.
      repeat split; [exact Hl | now apply Qeq_bool_iff].
  - intros [Ht | [-> | (props & q & -> & Hl & Hq)]].
    + now rewrite Ht.
    + reflexivity.
    + cbn [truthy negb orb SignalsTable.length_of]. rewrite Hl.
      cbn [strict_equals]. apply Qeq_bool_iff in Hq. now rewrite Hq.
Qed.

Lemma SignalsTable_empty_iff_witness :
  SignalsTable.SignalsTable (fun _ => "") (VObj [("length", VNum 0)])
  = Return SignalsTable.NoSignals.
Proof.
  apply (proj2 (SignalsTable_empty_iff (fun _ => "") (VObj [("length", VNum 0)]))).
  right. right. exists [("length", VNum 0)], 0%Q. repeat split.
Defined.

(** X23.  One element of the array that is [null] or [undefined] makes the
    whole component throw: no table is rendered for the other signals. *)
Theorem SignalsTable_throws_on_missing_signal
  (toLocaleString : value -> string) (signals : list value) :
  In VNull signals \/ In VUndefined signals ->
  exists e, SignalsTable.SignalsTable toLocaleString (VArr signals) = Throw e.
Proof.
  intros Hin.
  assert (Hrows : exists e, SignalsTable.rows toLocaleString signals = Throw e).
  { induction signals as [ | signal rest IH]; [destruct Hin as [[] | []] | ].
    cbn [SignalsTable.rows].
    destruct (SignalsTable.row toLocaleString signal) as [cells | e] eqn:Hrow;
      [ | now exists e].
    destruct IH as [e He].
    - destruct Hin as [[-> | H] | [-> | H]]; try discriminate; tauto.
    - rewrite He. now exists e. }
  destruct Hrows as [e He].
  unfold SignalsTable.SignalsTable.
  destruct signals as [ | signal rest]; [destruct Hin as [[] | []] | ].
  cbn [truthy negb orb SignalsTable.length_of strict_equals].
  pose proof (length_is_not_zero signal rest) as Hlen.
  rewrite Hlen, He. now exists e.
Qed.

Lemma SignalsTable_throws_on_missing_signal_witness :
  exists e,
    SignalsTable.SignalsTable (fun _ => "")
      (VArr [VObj [("Type", VStr "LONG")]; VNull])
    = Throw e.
Proof.
  exact (SignalsTable_throws_on_missing_signal (fun _ => "")
           [VObj [("Type", VStr "LONG")]; VNull]
           (or_introl (or_intror (or_introl eq_refl)))).
Defined.

(** ** The sector panel *)

(** X24.  When both sector fetches resolve, [fetchData] ends the loading
    and, if the series payload is [null] (reading its [success] throws),
    sets the error of a failed fetch and leaves entries and summary as they
    were.  Otherwise it clears the error; the entries are replaced by the
    payload's [data] only if its [success] reads truthy, and the summary by
    the summary payload only if that reads truthy: a series payload without
    a truthy [success] raises no error, and the entries on display stay. *)
Theorem fetchData_resolved
  (net : Network) (selectedPeriod : string) (s : SectorPerformance.State)
  (dataResponse summaryResponse : value) :
  sectorApi.fetchSectorData net selectedPeriod = Return dataResponse ->
  sectorApi.fetchSectorSummary net selectedPeriod = Return summaryResponse ->
  snd (SectorPerformance.fetchData net selectedPeriod s)
  = match get_prop dataResponse "success", get_prop dataResponse "data" with
    | Return success, Return data =>
        SectorPerformance.mkState (SectorPerformance.period s)
          (if truthy success then data else SectorPerformance.sectorData s)
          (if truthy summaryResponse then summaryResponse
           else SectorPerformance.summary s)
          false ""
    | _, _ =>
        SectorPerformance.mkState (SectorPerformance.period s)
          (SectorPerformance.sectorData s) (SectorPerformance.summary s)
          false "Failed to fetch sector data"
    end.
Proof.
  intros Hd Hsum.
  unfold SectorPerformance.fetchData, SectorPerformance.Promise_all. run_handler.
  rewrite Hd, Hsum.
  destruct dataResponse as [ | | b | q | str | items | props];
    cbn [get_prop]; try reflexivity;
    match goal with
    | |- context [truthy ?v] =>
        destruct (truthy v); destruct (truthy summaryResponse); reflexivity
    end.
Qed.

Lemma fetchData_resolved_witness :
  snd (SectorPerformance.fetchData weekly_only "7d" SectorPerformance.initial)
  = SectorPerformance.mkState "1d" sector_rows sector_summary false "" /\
  snd (SectorPerformance.fetchData null_series "7d" weekly_shown)
  = SectorPerformance.mkState "7d" sector_rows sector_summary false
      "Failed to fetch sector data".
Proof.
  split.
  - exact (fetchData_resolved weekly_only "7d" SectorPerformance.initial
             (VObj [("success", VBool true); ("data", sector_rows)])
             sector_summary eq_refl eq_refl).
  - exact (fetchData_resolved null_series "7d" weekly_shown VNull sector_summary
             eq_refl eq_refl).
Defined.




(** X26.  For an entry whose performance is a number, the bar is red exactly
    when it is pushed to the right, and a performance of 0 is green and on
    the left.  An entry whose performance is missing or not numeric ([NaN])
    is red and on the left. *)
Theorem red_bars_are_right_aligned (sector : SectorPerformance.Entry) :
  (forall q, SectorPerformance.performance sector = Fin q ->
     (SectorPerformance.getBarColor (SectorPerformance.performance sector) = "#f44336"
      <-> SectorPerformance.marginLeft sector = "auto") /\
     ((q == 0)%Q ->
      SectorPerformance.getBarColor (SectorPerformance.performance sector) = "#4caf50"
      /\ SectorPerformance.marginLeft sector = "0"))
  /\
  (SectorPerformance.performance sector = NaN ->
   SectorPerformance.getBarColor (SectorPerformance.performance sector) = "#f44336"
   /\ SectorPerformance.marginLeft sector = "0").
Proof.
  unfold SectorPerformance.getBarColor, SectorPerformance.marginLeft. split.
  - intros q ->. cbn [num_ge num_lt]. rewrite negb_involutive. split.
    + destruct (Qle_bool 0 q); cbn [negb]; split; try discriminate; reflexivity.
    + intros H0.
      assert (Hle : Qle_bool 0 q = true) by (apply Qle_bool_iff; lra).
      rewrite Hle. split; reflexivity.
  - intros ->. split; reflexivity.
Qed.

Lemma red_bars_are_right_aligned_witness :
  SectorPerformance.getBarColor (Fin 0) = "#4caf50" /\
  SectorPerformance.marginLeft (SectorPerformance.mkEntry "A" (Fin 0)) = "0" /\
  SectorPerformance.getBarColor NaN = "#f44336" /\
  SectorPerformance.marginLeft (SectorPerformance.mkEntry "B" NaN) = "0".
Proof.
  destruct (red_bars_are_right_aligned (SectorPerformance.mkEntry "A" (Fin 0)))
    as [Hnum _].
  destruct (Hnum 0%Q eq_refl) as [_ Hzero].
  destruct (Hzero ltac:(reflexivity)) as [Hgreen Hleft].
  destruct (red_bars_are_right_aligned (SectorPerformance.mkEntry "B" NaN))
    as [_ Hnan].
  destruct (Hnan eq_refl) as [Hred Hleft'].
  repeat split; assumption.
Defined.

(** X27.  An entry whose [abs(performance)] is the largest of the list, and
    not 0, has a bar of full width, 100. *)
Theorem width_of_largest_is_100
  (sectorData : list SectorPerformance.Entry) (sector : SectorPerformance.Entry)
  (p : Q) :
  In sector sectorData ->
  SectorPerformance.performance sector = Fin p ->
  (forall x, In x sectorData ->
             exists q, SectorPerformance.performance x = Fin q /\
                       (Qabs q <= Qabs p)%Q) ->
  (0 < Qabs p)%Q ->
  num_eq (SectorPerformance.width sectorData sector) (Fin 100).
Proof.
  intros Hin Hp Hlargest Hpos.
  assert (Hne : sectorData <> [])
    by (destruct sectorData; [destruct Hin | discriminate]).
  assert (Hnum : forall x, In x sectorData ->
                           exists q, SectorPerformance.performance x = Fin q).
  { intros x Hx. destruct (Hlargest x Hx) as (q & Hq & _). now exists q. }
  destruct (maxPerformance_is_max_abs sectorData Hne Hnum)
    as (m & Hmax & (x & q & Hx & Hxq & Hm) & Hbound).
  assert (Heq : (m == Qabs p)%Q).
  { apply Qle_antisym; [ | now apply (Hbound sector)].
    destruct (Hlargest x Hx) as (q' & Hq' & Hle).
    rewrite Hxq in Hq'. injection Hq' as <-. now subst m. }
  assert (Hmpos : (0 < m)%Q) by now rewrite Heq.
  destruct (width_over_positive sectorData sector m p Hmax Hmpos Hp) as [Hw _].
  rewrite Hw. cbn [num_eq].
  assert (H1 : (round64 (Qabs p / m) == 1)%Q).
  { rewrite <- round64_1. apply round64_comp. rewrite <- Heq.
    field. intros H0. rewrite H0 in Hmpos. discriminate. }
  assert (H2 : (round64 (round64 (Qabs p / m) * 100) == 100)%Q).
  { rewrite <- round64_100 at 2. apply round64_comp. rewrite H1. reflexivity. }
  rewrite H2. apply Q.min_id.
Qed.

Lemma width_of_largest_is_100_witness :
  num_eq (SectorPerformance.width two_entries (SectorPerformance.mkEntry "A" (Fin 10)))
    (Fin 100).
Proof.
  apply (width_of_largest_is_100 two_entries _ 10%Q).
  - now left.
  - reflexivity.
  - intros x [<- | [<- | []]]; eexists; (split; [reflexivity | discriminate]).
  - reflexivity.
Defined.

(** X28.  Over a list of numbers with a non-zero performance, the width of a
    bar grows with [abs(performance)]: a smaller magnitude never gets a
    wider bar. *)
Theorem width_is_monotone
  (sectorData : list SectorPerformance.Entry)
  (small large : SectorPerformance.Entry) (a b : Q) :
  (forall x, In x sectorData ->
             exists q, SectorPerformance.performance x = Fin q) ->
  (exists x q, In x sectorData /\ SectorPerformance.performance x = Fin q /\
               ~ (q == 0)%Q) ->
  SectorPerformance.performance small = Fin a ->
  SectorPerformance.performance large = Fin b ->
  (Qabs a <= Qabs b)%Q ->
  exists w1 w2,
    SectorPerformance.width sectorData small = Fin w1 /\
    SectorPerformance.width sectorData large = Fin w2 /\
    (w1 <= w2)%Q.
Proof.
  intros Hnum Hnz Ha Hb Hle.
  assert (Hne : sectorData <> []).
  { destruct Hnz as (x & _ & Hx & _). destruct sectorData; [destruct Hx | discriminate]. }
  destruct (maxPerformance_is_max_abs sectorData Hne Hnum)
    as (m & Hmax & _ & Hbound).
  pose proof (some_nonzero_gives_positive_max sectorData m Hbound Hnz) as Hmpos.
  destruct (width_over_positive sectorData small m a Hmax Hmpos Ha) as [Hw1 _].
  destruct (width_over_positive sectorData large m b Hmax Hmpos Hb) as [Hw2 _].
  eexists _, _. split; [exact Hw1 | split; [exact Hw2 | ]].
  apply Q.min_le_compat_r. apply round64_monotone.
  apply Qmult_le_compat_r; [ | discriminate].
  apply round64_monotone.
  unfold Qdiv. apply Qmult_le_compat_r; [exact Hle | ].
  apply Qlt_le_weak. now apply Qinv_lt_0_compat.
Qed.

Lemma width_is_monotone_witness :
  exists w1 w2,
    SectorPerformance.width two_entries (SectorPerformance.mkEntry "B" (Fin (-5))) = Fin w1 /\
    SectorPerformance.width two_entries (SectorPerformance.mkEntry "A" (Fin 10)) = Fin w2 /\
    (w1 <= w2)%Q.
Proof.
  apply (width_is_monotone two_entries _ _ (-5)%Q 10%Q).
  - intros x [<- | [<- | []]]; eexists; reflexivity.
  - exists (SectorPerformance.mkEntry "A" (Fin 10)), 10%Q.
    split; [now left | split; [reflexivity | discriminate]].
  - reflexivity.
  - reflexivity.
  - discriminate.
Defined.
